(** * Nexus Dashboard Insights: the NDI helper class and the
      nd_compliance_requirement_config_template module

    A shallow embedding of [plugins/module_utils/ndi.py] and of [main] in
    [plugins/modules/nd_compliance_requirement_config_template.py], with the
    properties of the response normalizers, of the lookups and of the
    reconciliation that the specification states. *)

From Stdlib Require Import String Ascii List ZArith Bool Lia DecimalString.
Import ListNotations.
Open Scope string_scope.
Set Warnings "-register-all".

(* ================================================================== *)
(** * Python values *)
(* ================================================================== *)

Module Py.

(** A parsed JSON document as Python holds it: [None], [bool], [int], [str],
    [list] and [dict].  A dict is an association list in insertion order;
    floats do not occur in the fields read here and are not represented. *)
Inductive json : Type :=
| JNull
| JBool (b : bool)
| JNum (n : Z)
| JStr (s : string)
| JList (l : list json)
| JDict (d : list (string * json)).

Definition dict (V : Type) : Type := list (string * V).

(** [d.get(k)] as an option; the first binding of a key is the binding. *)
Fixpoint dict_get {V : Type} (d : dict V) (k : string) : option V :=
  match d with
  | [] => None
  | (k', v) :: d' => if String.eqb k' k then Some v else dict_get d' k
  end.

(** [d[k] = v]: an existing key keeps its place, a new key goes last. *)
Fixpoint dict_set {V : Type} (d : dict V) (k : string) (v : V) : dict V :=
  match d with
  | [] => [(k, v)]
  | (k', v') :: d' =>
      if String.eqb k' k then (k', v) :: d' else (k', v') :: dict_set d' k v
  end.

Definition keys {V : Type} (d : dict V) : list string := map fst d.

(** Exceptions that leave the modelled code. *)
Inductive exn : Type :=
| AttributeError | TypeError | KeyError | IndexError | ValueError.

(** Result of a computation that may raise. *)
Inductive res (A : Type) : Type :=
| Ok (a : A)
| Raise (e : exn).
Arguments Ok {A} a.
Arguments Raise {A} e.

Definition bind {A B} (m : res A) (k : A -> res B) : res B :=
  match m with
  | Ok a => k a
  | Raise e => Raise e
  end.

Declare Scope py_scope.
Delimit Scope py_scope with py.
Notation "x <- m ;; k" := (bind m (fun x => k))
  (at level 61, m at next level, right associativity) : py_scope.
Open Scope py_scope.

(** [for x in l: s = body(s, x)], stopping at the first exception. *)
Fixpoint for_each {A S} (l : list A) (s : S) (body : S -> A -> res S) : res S :=
  match l with
  | [] => Ok s
  | x :: l' => s' <- body s x ;; for_each l' s' body
  end.

(** ** Built-in operations on values *)

(** [o.get(k)]: only a dict has [get]; a missing key gives [None]. *)
Definition py_get (o : json) (k : string) : res json :=
  match o with
  | JDict d => Ok (match dict_get d k with Some v => v | None => JNull end)
  | _ => Raise AttributeError
  end.

(** [o.get(k, default)]. *)
Definition py_get_default (o : json) (k : string) (default : json) : res json :=
  match o with
  | JDict d => Ok (match dict_get d k with Some v => v | None => default end)
  | _ => Raise AttributeError
  end.

(** [o[k]] for a string key. *)
Definition py_getitem (o : json) (k : string) : res json :=
  match o with
  | JDict d => match dict_get d k with Some v => Ok v | None => Raise KeyError end
  | _ => Raise TypeError
  end.

(** [o[0]]. *)
Definition py_first (o : json) : res json :=
  match o with
  | JList (x :: _) => Ok x
  | JList [] => Raise IndexError
  | JStr (String c _) => Ok (JStr (String c EmptyString))
  | JStr EmptyString => Raise IndexError
  | JDict _ => Raise KeyError
  | _ => Raise TypeError
  end.

(** The items a [for] loop over [o] visits: the elements of a list, the
    characters of a str, the keys of a dict. *)
Definition py_iter (o : json) : res (list json) :=
  match o with
  | JList l => Ok l
  | JStr s => Ok (map (fun c => JStr (String c EmptyString)) (list_ascii_of_string s))
  | JDict d => Ok (map JStr (keys d))
  | _ => Raise TypeError
  end.

(** Truth value of a value in an [if]. *)
Definition truthy (o : json) : bool :=
  match o with
  | JNull => false
  | JBool b => b
  | JNum n => negb (n =? 0)%Z
  | JStr s => negb (String.eqb s "")
  | JList l => match l with [] => false | _ => true end
  | JDict d => match d with [] => false | _ => true end
  end.

(** [a == b].  [True == 1] and [False == 0] as in Python; two dicts are equal
    when they have the same keys with equal values, in any order. *)
Fixpoint py_eq (a b : json) {struct a} : bool :=
  match a, b with
  | JNull, JNull => true
  | JBool x, JBool y => Bool.eqb x y
  | JBool x, JNum n => ((if x then 1 else 0) =? n)%Z
  | JNum n, JBool x => (n =? (if x then 1 else 0))%Z
  | JNum n, JNum m => (n =? m)%Z
  | JStr s, JStr t => String.eqb s t
  | JList l, JList m =>
      (fix go (l m : list json) {struct l} : bool :=
         match l, m with
         | [], [] => true
         | x :: l', y :: m' => py_eq x y && go l' m'
         | _, _ => false
         end) l m
  | JDict d, JDict e =>
      (length d =? length e)%nat &&
      (fix all (d : list (string * json)) : bool :=
         match d with
         | [] => true
         | (k, v) :: d' =>
             match dict_get e k with
             | Some w => py_eq v w
             | None => false
             end && all d'
         end) d
  | _, _ => false
  end.

(** ** Strings *)

(** [s.split(sep)] for a one-character separator. *)
Fixpoint split (sep : ascii) (s : string) : list string :=
  match s with
  | EmptyString => [EmptyString]
  | String c s' =>
      if Ascii.eqb c sep then EmptyString :: split sep s'
      else match split sep s' with
           | w :: ws => String c w :: ws
           | [] => [String c EmptyString]
           end
  end.

(** [s.rsplit(sep, 1)] when it has two parts; [None] when [sep] does not
    occur and the list has one element. *)
Fixpoint rsplit1 (sep : ascii) (s : string) : option (string * string) :=
  match s with
  | EmptyString => None
  | String c s' =>
      match rsplit1 sep s' with
      | Some (h, t) => Some (String c h, t)
      | None => if Ascii.eqb c sep then Some (EmptyString, s') else None
      end
  end.

(** [os.path.basename(p)]: what follows the last slash. *)
Definition basename (p : string) : string := last (split "/" p) "".

(** The two built-ins taken from the Python runtime as they are:
    [str.lower], and the text [str.format] puts for a value ([str(v)]: the
    string itself for a str, [None] for None, ...). *)
Record runtime : Type := {
  str_lower : string -> string;
  str_of : json -> string
}.

(** [v.lower()]: only a str has [lower]. *)
Definition py_lower (R : runtime) (v : json) : res string :=
  match v with
  | JStr s => Ok (str_lower R s)
  | _ => Raise AttributeError
  end.

(** A runtime for ASCII text, to run the definitions on examples. *)
Definition ascii_lower (c : ascii) : ascii :=
  let n := nat_of_ascii c in
  if ((65 <=? n) && (n <=? 90))%nat then ascii_of_nat (n + 32) else c.

Fixpoint lower (s : string) : string :=
  match s with
  | EmptyString => EmptyString
  | String c s' => String (ascii_lower c) (lower s')
  end.

(** Python's text for an int. *)
Definition str_of_int (n : Z) : string := NilZero.string_of_int (Z.to_int n).

(** [str(v)] ([quoted] false) and [repr(v)] ([quoted] true) for the values
    met in the examples: text for a str, [None], [True], [False], decimal
    digits; a list or dict with the repr of its items in brackets (their
    text needs no escaping in the examples). *)
Fixpoint ascii_text (quoted : bool) (v : json) : string :=
  match v with
  | JNull => "None"
  | JBool true => "True"
  | JBool false => "False"
  | JNum n => str_of_int n
  | JStr s => if quoted then "'" ++ s ++ "'" else s
  | JList l =>
      "[" ++ (fix items (l : list json) : string :=
                match l with
                | [] => ""
                | [x] => ascii_text true x
                | x :: l' => ascii_text true x ++ ", " ++ items l'
                end) l ++ "]"
  | JDict d =>
      "{" ++ (fix items (d : list (string * json)) : string :=
                match d with
                | [] => ""
                | [(k, x)] => "'" ++ k ++ "': " ++ ascii_text true x
                | (k, x) :: d' => "'" ++ k ++ "': " ++ ascii_text true x ++ ", " ++ items d'
                end) d ++ "}"
  end.

Definition ascii_str_of (v : json) : string := ascii_text false v.

Definition ascii_runtime : runtime :=
  {| str_lower := lower; str_of := ascii_str_of |}.

(** ** Calls to the service

    A method that talks to the service runs against the list of calls made
    so far and ends in a value, in an exception, or in [fail_json], which
    ends the invocation with a message. *)
Inductive outcome (A : Type) : Type :=
| Done (a : A)
| Raised (e : exn)
| Failed (msg : string).
Arguments Done {A} a.
Arguments Raised {A} e.
Arguments Failed {A} msg.

Definition eff (L A : Type) : Type := list L -> outcome A * list L.

Definition ret {L A} (a : A) : eff L A := fun log => (Done a, log).

Definition ebind {L A B} (m : eff L A) (k : A -> eff L B) : eff L B :=
  fun log =>
    match m log with
    | (Done a, log') => k a log'
    | (Raised e, log') => (Raised e, log')
    | (Failed msg, log') => (Failed msg, log')
    end.

Definition lift {L A} (m : res A) : eff L A :=
  fun log => (match m with Ok a => Done a | Raise e => Raised e end, log).

Definition fail_json {L A} (msg : string) : eff L A := fun log => (Failed msg, log).

Notation "x <~ m ;; k" := (ebind m (fun x => k))
  (at level 61, m at next level, right associativity) : py_scope.

Fixpoint for_each_eff {L A S} (l : list A) (s : S) (body : S -> A -> eff L S) : eff L S :=
  match l with
  | [] => ret s
  | x :: l' => s' <~ body s x ;; for_each_eff l' s' body
  end.

(** ** Further built-ins *)

(** [len(o)]. *)
Definition py_len (o : json) : res nat :=
  match o with
  | JList l => Ok (length l)
  | JStr s => Ok (String.length s)
  | JDict d => Ok (length d)
  | _ => Raise TypeError
  end.

(** What may be the key of a dict: a list or a dict is unhashable. *)
Definition hashable (k : json) : bool :=
  match k with
  | JList _ | JDict _ => false
  | _ => true
  end.

(** A dict whose keys are any hashable values: two keys are the same key
    when they are equal ([==]); the key object first inserted stays. *)
Definition kdict (V : Type) : Type := list (json * V).

Fixpoint key_get {V : Type} (d : kdict V) (k : json) : option V :=
  match d with
  | [] => None
  | (k', v) :: d' => if py_eq k' k then Some v else key_get d' k
  end.

Fixpoint key_set {V : Type} (d : kdict V) (k : json) (v : V) : kdict V :=
  match d with
  | [] => [(k, v)]
  | (k', v') :: d' =>
      if py_eq k' k then (k', v) :: d' else (k', v') :: key_set d' k v
  end.

End Py.

(* ================================================================== *)
(** * plugins/module_utils/ndi.py: class NDI *)
(* ================================================================== *)

Module NDI.
Import Py.

(** One [self.nd.query_obj(path, **kwargs)]; the only keyword passed on is
    [prefix]. *)
Record call : Type := { c_path : string; c_prefix : option string }.

(** The client [self.nd]: what the service answers to a read of a path. *)
Record nd_module : Type := { answer : string -> option string -> json }.

Section Methods.
Variable R : runtime.
Variable nd : nd_module.

Definition prefix : string := "/sedgeapi/v1/cisco-nir/api/api/telemetry/v2".
Definition config_ig_path : string := "config/insightsGroup".
Definition event_insight_group_path (ig site : string) : string :=
  "events/insightsGroup/" ++ ig ++ "/fabric/" ++ site.
Definition compliance_path : string := "model/aciPolicy/complianceAnalysis".
Definition epoch_delta_ig_path (ig site job : string) : string :=
  "epochDelta/insightsGroup/" ++ ig ++ "/fabric/" ++ site ++ "/job/" ++ job ++ "/health/view".

Definition query_obj (path : string) (kwargs : option string) : eff call json :=
  fun log =>
    (Done (answer nd path kwargs),
     (log ++ [{| c_path := path; c_prefix := kwargs |}])%list).

(** The loop of [get_site_id]: the uuid of the first site whose name is
    [site_name]; falling off the end of the loop returns [None]. *)
Fixpoint scan_sites (sites : list json) (site_name : string) : res json :=
  match sites with
  | [] => Ok JNull
  | site :: rest =>
      n <- py_getitem site "name" ;;
      if py_eq n (JStr site_name) then py_getitem site "uuid"
      else scan_sites rest site_name
  end.

Definition get_site_id (site_name : string) (kwargs : option string) : eff call json :=
  obj <~ query_obj config_ig_path kwargs ;;
  lift (v <- py_getitem obj "value" ;;
        d <- py_getitem v "data" ;;
        x <- py_first d ;;
        a <- py_getitem x "assuranceEntities" ;;
        sites <- py_iter a ;;
        scan_sites sites site_name).

Definition get_pre_change_result (pcv_results : json) (name : string) (site_id : json)
    (path : string) (kwargs : option string) : eff call json :=
  pcvs <~ lift (py_iter pcv_results) ;;
  for_each_eff pcvs (JDict []) (fun pcv_result pcv =>
    n <~ lift (py_get pcv "name") ;;
    hit <~ (if py_eq n (JStr name)
            then (f <~ lift (py_get pcv "fabricUuid") ;; ret (py_eq f site_id))
            else ret false) ;;
    if hit : bool then
      pcv_job_id <~ lift (py_get pcv "jobId") ;;
      let pcv_path := path ++ "/" ++ str_of R pcv_job_id in
      obj <~ query_obj pcv_path kwargs ;;
      lift (v <- py_getitem obj "value" ;; py_getitem v "data")
    else ret pcv_result).

Definition get_epochs (ig_name site_name : string) : eff call json :=
  let ig_base_path := event_insight_group_path ig_name site_name in
  let path := ig_base_path ++ "/epochs?$size=1&$status=FINISHED" in
  obj <~ query_obj path (Some prefix) ;;
  lift (v <- py_getitem obj "value" ;; d <- py_getitem v "data" ;; py_first d).

Definition query_data (path : string) : eff call json :=
  obj <~ query_obj path (Some prefix) ;;
  lift (v <- py_getitem obj "value" ;; py_getitem v "data").

(** [result[k][e] = v]. *)
Definition set_inner (result : dict (dict json)) (k e : string) (v : json)
    : res (dict (dict json)) :=
  match dict_get result k with
  | Some inner => Ok (dict_set result k (dict_set inner e v))
  | None => Raise KeyError
  end.

Definition format_event_severity (events_severity : json) : res (dict (dict json)) :=
  entries <- py_iter events_severity ;;
  for_each entries [] (fun result each =>
    b <- py_get each "bucket" ;;
    s <- py_lower R b ;;
    let event_severity_type := last (split "_" s) "" in
    let result := dict_set result event_severity_type [] in
    o <- py_get each "output" ;;
    outputs <- py_iter o ;;
    for_each outputs result (fun result output =>
      b <- py_get output "bucket" ;;
      epoch <- py_lower R b ;;
      epoch_count <- py_get output "count" ;;
      set_inner result event_severity_type epoch epoch_count)).

Definition format_impacted_resource (impacted_resource : json) : res (dict (dict json)) :=
  entries <- py_iter impacted_resource ;;
  for_each entries [] (fun result each =>
    b <- py_get each "bucket" ;;
    resource <- py_lower R b ;;
    let result := dict_set result resource [] in
    o <- py_get each "output" ;;
    outputs <- py_iter o ;;
    for_each outputs result (fun result output =>
      oo <- py_get output "output" ;;
      epochs <- py_iter oo ;;
      for_each epochs result (fun result epoch =>
        b <- py_get epoch "bucket" ;;
        epoch_type <- py_lower R b ;;
        count <- py_get epoch "count" ;;
        set_inner result resource epoch_type count))).

Definition query_event_severity (ig_name site_name epoch_delta_job_id : string)
    : eff call (dict (dict json)) :=
  let path := epoch_delta_ig_path ig_name site_name epoch_delta_job_id ++ "/eventSeverity" in
  event_severity <~ query_data path ;;
  lift (format_event_severity event_severity).

Definition query_impacted_resource (ig_name site_name epoch_delta_job_id : string)
    : eff call (dict (dict json)) :=
  let path := epoch_delta_ig_path ig_name site_name epoch_delta_job_id ++ "/impactedResource" in
  impacted_resource <~ query_data path ;;
  lift (format_impacted_resource impacted_resource).

Definition format_messages (messages : json) : res (dict json) :=
  msgs <- py_iter messages ;;
  for_each msgs [] (fun result message =>
    msg <- py_get message "message" ;;
    s <- py_get message "severity" ;;
    severity <- py_lower R s ;;
    Ok (dict_set result severity msg)).

(** Returns [None] (here [None] of option) when the answer has no messages. *)
Definition query_messages (path : string) : eff call (option (dict json)) :=
  obj <~ query_obj path (Some prefix) ;;
  m <~ lift (py_get obj "messages") ;;
  match m with
  | JNull => ret None
  | _ => result <~ lift (format_messages m) ;; ret (Some result)
  end.

Definition query_pcvs (ig_name : string) : eff call json :=
  let pcvs_path := config_ig_path ++ "/" ++ ig_name ++ "/prechangeAnalysis?$sort=-analysisSubmissionTime" in
  obj <~ query_obj pcvs_path (Some prefix) ;;
  lift (v <- py_getitem obj "value" ;; py_getitem v "data").

Definition query_pcv (ig_name : string) (site_name pcv_name : option string) : eff call json :=
  pcv_results <~ query_pcvs ig_name ;;
  match pcv_name, site_name with
  | Some pcv_name, Some site_name =>
      site_id <~ get_site_id site_name (Some prefix) ;;
      let pcv_path := config_ig_path ++ "/" ++ ig_name ++ "/fabric/" ++ site_name ++ "/prechangeAnalysis" in
      get_pre_change_result pcv_results pcv_name site_id pcv_path (Some prefix)
  | _, _ => fail_json "site name and prechange validation job name are required"
  end.

Definition query_compliance_score (ig_name site_name compliance_epoch_id : string)
    : eff call json :=
  let ig_base_path := event_insight_group_path ig_name site_name in
  let path := ig_base_path ++ "/" ++ compliance_path ++ "/complianceScore?%24epochId="
              ++ compliance_epoch_id in
  query_data path.

Definition query_compliance_count (ig_name site_name compliance_epoch_id : string)
    : eff call json :=
  let ig_base_path := event_insight_group_path ig_name site_name in
  let path := ig_base_path ++ "/" ++ compliance_path ++ "/count?%24epochId="
              ++ compliance_epoch_id in
  query_data path.

Definition query_entry (ig_name site_name epoch_delta_job_id : string) : eff call json :=
  let path := epoch_delta_ig_path ig_name site_name epoch_delta_job_id
              ++ "/individualTable?epochStatus=BOTH_EPOCHS" in
  obj <~ query_obj path (Some prefix) ;;
  lift (py_getitem obj "entries").

Definition query_compliance_smart_event (ig_name site_name compliance_epoch_id : string)
    : eff call (option (dict json)) :=
  let ig_base_path := event_insight_group_path ig_name site_name in
  let path := ig_base_path ++ "/smartEvents?%24epochId=" ++ compliance_epoch_id
              ++ "&%24page=0&%24size=10&%24sort=-severity&category=COMPLIANCE" in
  query_messages path.

Definition query_msg_with_data (ig_name site_name path : string) : eff call (dict json) :=
  let ig_base_path := event_insight_group_path ig_name site_name in
  let path := ig_base_path ++ "/" ++ compliance_path ++ "/" ++ path in
  let result : dict json := [] in
  obj <~ query_obj path (Some prefix) ;;
  m <~ lift (py_get obj "messages") ;;
  result <~ match m with
            | JNull => ret result
            | _ =>
                message <~ lift (format_messages m) ;;
                ret (if (0 <? length message)%nat
                     then dict_set result "messages" (JDict message)
                     else result)
            end ;;
  data <~ lift (v <- py_get obj "value" ;; py_getitem v "data") ;;
  n <~ lift (py_len data) ;;
  ret (if (0 <? n)%nat then dict_set result "data" data else result).

Definition query_unhealthy_resources (ig_name site_name compliance_epoch_id : string)
    : eff call (kdict (dict json)) :=
  let ig_base_path := event_insight_group_path ig_name site_name in
  let path := ig_base_path ++ "/" ++ compliance_path ++ "/eventUnhealthyResources?%24epochId="
              ++ compliance_epoch_id in
  objs <~ query_data path ;;
  lift (items <- py_iter objs ;;
        for_each items [] (fun result obj =>
          c <- py_get obj "count" ;;
          t <- py_get obj "total" ;;
          b <- py_get obj "bucket" ;;
          if hashable b then Ok (key_set result b [("count", c); ("total", t)])
          else Raise TypeError)).

End Methods.
End NDI.

(* ================================================================== *)
(** * plugins/modules/nd_compliance_requirement_config_template.py *)
(* ================================================================== *)

Module ConfigTemplate.
Import Py.

Inductive state_choice : Type := Query | Absent | Present.

(** [nd.params] as the argument spec declares them; an option that was not
    given is [None].  (A key given with a null value, which [AnsibleModule]
    counts as given, is not represented.) *)
Record params : Type := {
  insights_group : string;
  name : option string;
  description : option string;
  enabled : option bool;
  sites : option (list string);
  state : state_choice;
  file : option string;
  selector_based_on_tags : bool
}.

(** What [main] goes on with once [AnsibleModule] has applied [required_if]:
    [absent] comes with a name; [present] with name, sites, enabled, file. *)
Inductive checked : Type :=
| CQuery
| CAbsent (name : string)
| CPresent (name : string) (enabled : bool) (sites : list string) (file : string).

Definition missing {A} (label : string) (o : option A) : list string :=
  match o with Some _ => [] | None => [label] end.

Fixpoint join (sep : string) (l : list string) : string :=
  match l with
  | [] => ""
  | [x] => x
  | x :: l' => x ++ sep ++ join sep l'
  end.

(** The [required_if] check of [AnsibleModule]: the checked view, or the
    message it fails with. *)
Definition required_if (p : params) : string + checked :=
  match state p with
  | Query => inr CQuery
  | Absent =>
      match name p with
      | Some n => inr (CAbsent n)
      | None => inl "state is absent but all of the following are missing: name"
      end
  | Present =>
      match name p, sites p, enabled p, file p with
      | Some n, Some ss, Some en, Some f => inr (CPresent n en ss f)
      | n, ss, en, f =>
          inl ("state is present but all of the following are missing: " ++
               join ", " (missing "name" n ++ missing "sites" ss ++
                          missing "enabled" en ++ missing "file" f)%list)
      end
  end.

(** The methods [main] passes to [nd.request]; each of them changes the
    service. *)
Inductive method : Type := POST | PATCH | DELETE.

(** One [nd.request(path, method=..., data=..., file=..., prefix=...)]. *)
Record request : Type := {
  r_path : string;
  r_method : method;
  r_data : dict json;
  r_file : option string;
  r_prefix : string
}.

(** What [main] takes from elsewhere: attributes and lookups of the NDI
    object that the class above does not have ([requirements_path],
    [query_requirements], [set_requirement_details], and [get_site_id] with
    the insights group as first argument), [sanitize_dict] and [request] of
    module_utils/nd.py, and [os.path.abspath].  The lookups read the service
    and issue no [nd.request]; [set_requirement_details] returns the uuid it
    found and leaves the record in [nd.existing]. *)
Record collaborators : Type := {
  ndi_prefix : string;
  requirements_path : string -> string;
  query_requirements : string -> json;
  set_requirement_details : list json -> option string -> json * dict json;
  get_site_id : string -> string -> json;
  sanitize_dict : dict json -> list string -> dict json;
  response : request -> json;
  abspath : string -> string
}.

(** What [nd.exit_json()] reports. *)
Record report : Type := {
  previous : dict json;
  existing : dict json;
  changed : bool
}.

(** Modelled from the spec: [NDModule.exit_json] (module_utils/nd.py) is
    not among the sources.  It reports the [previous] and [existing]
    snapshots plus a changed/unchanged indicator; for [present] and [absent]
    the indicator is set when the two snapshots differ. *)
Definition exit_json {L} (st : state_choice) (prev cur : dict json) : eff L report :=
  ret {| previous := prev;
         existing := cur;
         changed := match st with
                    | Query => false
                    | _ => negb (py_eq (JDict prev) (JDict cur))
                    end |}.

(** Modelled from the spec: [NDModule.__init__] (module_utils/nd.py) is not
    among the sources; each invocation starts with empty [previous] and
    [existing] snapshots. *)
Definition nd_previous_init : dict json := [].

Definition delete_keys : list string :=
  [ "complianceRequirementAttachments"; "uuid"; "insightsGroupName"; "isAllTraffic";
    "lastEditedDate"; "removeNonConfigAttributes"; "uploadedFileSize";
    "uploadedFileUploadDate"; "links"; "uploadedFileExtension"; "uploadedFileName" ].

Definition template_type : string := "TEMPLATE_BASED_CONFIGURATION_COMPLIANCE".

(** [[item for item in items if item.get("configurationType") == ...]]. *)
Fixpoint template_requirements (items : list json) : res (list json) :=
  match items with
  | [] => Ok []
  | item :: rest =>
      c <- py_get item "configurationType" ;;
      keep <- template_requirements rest ;;
      Ok (if py_eq c (JStr template_type) then item :: keep else keep)
  end.

(** The payload of the [present] branch, as it stands before the request. *)
Definition build_payload (name : string) (enabled : bool) (site_uuids : list json)
    (selector_based_on_tags : bool) (description : option string)
    (existing : dict json) : dict json :=
  let payload :=
    [ ("name", JStr name);
      ("enabled", JBool enabled);
      ("configurationType", JStr template_type);
      ("requirementType", JStr "CONFIGURATION_COMPLIANCE");
      ("associatedSites",
       JList (map (fun u => JDict [("enabled", JBool true); ("uuid", u)]) site_uuids));
      ("enableEqualityCheck", JBool false);
      ("uploadFileType", JStr "TEMPLATE_BASED_CONFIG");
      ("enableSelectorBasedOnTags", JBool selector_based_on_tags) ] in
  let cleared :=
    if truthy (match dict_get existing "description" with Some v => v | None => JNull end)
    then dict_set payload "description" (JStr " ")
    else payload in
  match description with
  | Some d => if negb (String.eqb d "") then dict_set payload "description" (JStr d) else cleared
  | None => cleared
  end.

Definition file_mismatch_msg (given_file attached : string) : string :=
  "File provided '" ++ given_file ++ "' is not matching file '" ++ attached ++
  "' of existing requirement".

(** [dictionary.update(uploadedFileExtension=extension)] and
    [dictionary.update(uploadedFileName=filename)]. *)
Definition attach_file (filename extension : string) (dictionary : dict json) : dict json :=
  dict_set (dict_set dictionary "uploadedFileExtension" (JStr extension))
           "uploadedFileName" (JStr filename).

Section Main.
Variable R : runtime.
Variable C : collaborators.

Definition nd_request (r : request) : eff request json :=
  fun log => (Done (response C r), (log ++ [r])%list).

(** [sanitize_dict(response.get("value", {}).get("data", {}), delete_keys)];
    [sanitize_dict] walks the items of a dict. *)
Definition sanitized_answer (resp : json) : res (dict json) :=
  v <- py_get_default resp "value" (JDict []) ;;
  d <- py_get_default v "data" (JDict []) ;;
  match d with
  | JDict d => Ok (sanitize_dict C d delete_keys)
  | _ => Raise AttributeError
  end.

(** The requirements of the template type and the lookup among them:
    [requirements = [...]] and [uuid = ndi.set_requirement_details(requirements, name)],
    which also sets [nd.existing]. *)
Definition locate (p : params) : res (json * dict json) :=
  items <- py_iter (query_requirements C (insights_group p)) ;;
  requirements <- template_requirements items ;;
  Ok (set_requirement_details C requirements (name p)).

(** [main].  The requests are logged in the order they are issued.
    [nd.existing = payload] shares the payload object; the payload is not
    read again after that line, so the two updates at the end show in
    [nd.existing] and nowhere else. *)
Definition main (p : params) (check_mode : bool) : eff request report :=
  match required_if p with
  | inl msg => fail_json msg
  | inr view =>
      let path := requirements_path C (insights_group p) in
      found <~ lift (locate p) ;;
      let (uuid, nd_existing) := found : json * dict json in
      match view with
      | CAbsent _ =>
          if truthy uuid then
            let nd_previous := sanitize_dict C nd_existing delete_keys in
            _ <~ (if negb check_mode
                  then nd_request {| r_path := path; r_method := DELETE;
                                     r_data := [("ids", JList [uuid])];
                                     r_file := None; r_prefix := ndi_prefix C |}
                  else ret JNull) ;;
            exit_json (state p) nd_previous []
          else exit_json (state p) nd_previous_init nd_existing
      | CPresent name enabled sites file =>
          let get k := match dict_get nd_existing k with Some v => v | None => JNull end in
          _ <~ (if truthy uuid then
                  let filename := str_of R (get "uploadedFileName") ++ "." ++
                                  str_of R (get "uploadedFileExtension") in
                  if negb (String.eqb filename (basename file))
                  then fail_json (file_mismatch_msg (basename file) filename)
                  else ret tt
                else ret tt) ;;
          let nd_previous := sanitize_dict C nd_existing delete_keys in
          let payload :=
            build_payload name enabled
              (map (fun site => get_site_id C (insights_group p) site) sites)
              (selector_based_on_tags p) (description p) nd_existing in
          nd_existing <~
            (if negb check_mode && negb (py_eq (JDict payload) (JDict nd_previous)) then
               if truthy uuid then
                 let payload := dict_set payload "uuid" uuid in
                 resp <~ nd_request {| r_path := path ++ "/" ++ str_of R uuid;
                                       r_method := PATCH; r_data := payload;
                                       r_file := None; r_prefix := ndi_prefix C |} ;;
                 lift (sanitized_answer resp)
               else
                 let payload := dict_set payload "uploadedFileName" (JStr file) in
                 resp <~ nd_request {| r_path := path ++ "/file";
                                       r_method := POST; r_data := payload;
                                       r_file := Some (abspath C file);
                                       r_prefix := ndi_prefix C |} ;;
                 lift (sanitized_answer resp)
             else ret payload) ;;
          match rsplit1 "." (basename file) with
          | Some (filename, extension) =>
              exit_json (state p) (attach_file filename extension nd_previous)
                                  (attach_file filename extension nd_existing)
          | None => lift (Raise ValueError)
          end
      | CQuery => exit_json (state p) nd_previous_init nd_existing
      end
  end.

End Main.
End ConfigTemplate.

(* ================================================================== *)
(** * Notions of the specification *)
(* ================================================================== *)

Module Spec.
Import Py.

(** Field [k] of an entry, [None] when the entry has none. *)
Definition field (o : json) (k : string) : json :=
  match o with
  | JDict d => match dict_get d k with Some v => v | None => JNull end
  | _ => JNull
  end.

Definition text (v : json) : string :=
  match v with JStr s => s | _ => "" end.

Definition items (v : json) : list json :=
  match v with JList l => l | _ => [] end.

Definition is_dict (o : json) : bool :=
  match o with JDict _ => true | _ => false end.

Definition is_str (v : json) : bool :=
  match v with JStr _ => true | _ => false end.

Definition is_list (v : json) : bool :=
  match v with JList _ => true | _ => false end.

(** ** The schema of the bucketed answers *)

(** A leaf: an item with a string [bucket] (its [count] is read with [get]
    and may be anything). *)
Definition wf_leaf (o : json) : bool :=
  is_dict o && is_str (field o "bucket").

(** An entry of the severity answer: a string [bucket] and a list [output]
    of leaves. *)
Definition wf_severity_entry (each : json) : bool :=
  is_dict each && is_str (field each "bucket") &&
  is_list (field each "output") && forallb wf_leaf (items (field each "output")).

(** An item of the resource answer's [output]: it holds a further list
    [output] of leaves. *)
Definition wf_nested (o : json) : bool :=
  is_dict o && is_list (field o "output") && forallb wf_leaf (items (field o "output")).

Definition wf_resource_entry (each : json) : bool :=
  is_dict each && is_str (field each "bucket") &&
  is_list (field each "output") && forallb wf_nested (items (field each "output")).

(** A message with a string [severity]. *)
Definition wf_message (m : json) : bool :=
  is_dict m && is_str (field m "severity").

Section Keys.
Variable R : runtime.

(** Category key of a severity entry: the lower-cased bucket, cut after its
    last underscore. *)
Definition severity_category (each : json) : string :=
  last (split "_" (str_lower R (text (field each "bucket")))) "".

(** Category key of a resource entry: the lower-cased bucket. *)
Definition resource_category (each : json) : string :=
  str_lower R (text (field each "bucket")).

(** Epoch key of a leaf: the lower-cased bucket. *)
Definition epoch_key (leaf : json) : string :=
  str_lower R (text (field leaf "bucket")).

Definition severity_leaves (each : json) : list json :=
  items (field each "output").

Definition resource_leaves (each : json) : list json :=
  flat_map (fun o => items (field o "output")) (items (field each "output")).

(** The leaf bucket pairs present in an input. *)
Definition leaf_pairs (category : json -> string) (leaves : json -> list json)
    (entries : list json) : list (string * string) :=
  flat_map (fun each => map (fun l => (category each, epoch_key l)) (leaves each)) entries.

(** Key of a message: the lower-cased severity. *)
Definition severity_key (m : json) : string :=
  str_lower R (text (field m "severity")).

End Keys.

(** The mapping a loop of assignments [d[key(x)] = val(x)] over [l] leaves,
    started from [d0]. *)
Definition assign_all {A V} (key : A -> string) (val : A -> V) (l : list A) (d0 : dict V)
    : dict V :=
  fold_left (fun d x => dict_set d (key x) (val x)) l d0.

(** The count a leaf carries ([None] when it has none). *)
Definition count_of (leaf : json) : json := field leaf "count".

(** The inner mapping that the leaves of one entry are assigned into. *)
Definition inner_of (R : runtime) (leaves : json -> list json) (each : json) : dict json :=
  assign_all (epoch_key R) count_of (leaves each) [].

(** The (category key, epoch key) pairs of a returned mapping. *)
Definition result_pairs (result : dict (dict json)) : list (string * string) :=
  flat_map (fun kv => map (fun e => (fst kv, e)) (keys (snd kv))) result.

(** [x] is the last element of [l] whose key is [k]. *)
Definition last_with {A} (key : A -> string) (k : string) (l : list A) (x : A) : Prop :=
  exists l1 l2, l = (l1 ++ x :: l2)%list /\ key x = k /\ forall y, In y l2 -> key y <> k.

(** The attached file of an existing record: its file name joined with a
    dot and its extension, as [str.format] writes them. *)
Definition attached_file (R : runtime) (record : dict json) : string :=
  str_of R (field (JDict record) "uploadedFileName") ++ "." ++
  str_of R (field (JDict record) "uploadedFileExtension").

(** ** The site list *)

(** [obj['value']['data'][0]['assuranceEntities']]. *)
Definition assurance_entities (obj : json) : res json :=
  v <- py_getitem obj "value" ;;
  d <- py_getitem v "data" ;;
  x <- py_first d ;;
  py_getitem x "assuranceEntities".

(** A site of the list: a record with a [name] and a [uuid]. *)
Definition wf_site (site : json) : Prop :=
  exists d n u, site = JDict d /\ dict_get d "name" = Some n /\ dict_get d "uuid" = Some u.

(** [obj['value']['data']]. *)
Definition data_of (obj : json) : res json :=
  v <- py_getitem obj "value" ;; py_getitem v "data".

(** ** Further notions *)


(** Whether character [c] occurs in [s]. *)
Fixpoint contains (c : ascii) (s : string) : bool :=
  match s with
  | EmptyString => false
  | String c' s' => Ascii.eqb c' c || contains c s'
  end.

(** The count stored under category [c] and epoch [e]. *)
Definition count_at (result : dict (dict json)) (c e : string) : option json :=
  match dict_get result c with
  | Some inner => dict_get inner e
  | None => None
  end.

(** Whether a pre-change analysis is the one of [name] on site [site_id]. *)
Definition pcv_hit (name : string) (site_id : json) (pcv : json) : bool :=
  py_eq (field pcv "name") (JStr name) && py_eq (field pcv "fabricUuid") site_id.

(** The path of the job of a pre-change analysis below [path]. *)
Definition job_path (R : runtime) (path : string) (pcv : json) : string :=
  path ++ "/" ++ str_of R (field pcv "jobId").

(** What the job read of a pre-change analysis brings: the [data] of the
    answer. *)
Definition job_data (R : runtime) (nd : NDI.nd_module) (path : string)
    (kwargs : option string) (pcv : json) : json :=
  match data_of (NDI.answer nd (job_path R path pcv) kwargs) with
  | Ok d => d
  | Raise _ => JNull
  end.

Definition job_call (R : runtime) (path : string) (kwargs : option string) (pcv : json)
    : NDI.call :=
  {| NDI.c_path := job_path R path pcv; NDI.c_prefix := kwargs |}.

(** The uuid [get_site_id] finds in a list of sites. *)
Definition site_uuid (site_name : string) (sites : list json) : json :=
  match find (fun s => py_eq (field s "name") (JStr site_name)) sites with
  | Some s => field s "uuid"
  | None => JNull
  end.

(** The mapping [format_messages] builds from well-formed messages. *)
Definition messages_map (R : runtime) (msgs : list json) : dict json :=
  assign_all (severity_key R) (fun m => field m "message") msgs [].

(** The bucket of an entry as it is written. *)
Definition bucket_of (obj : json) : string := text (field obj "bucket").

(** What [query_unhealthy_resources] stores for an entry. *)
Definition count_total (obj : json) : dict json :=
  [("count", field obj "count"); ("total", field obj "total")].

(** A dict with string keys as a dict with keys of any kind. *)
Definition as_kdict {V} (d : dict V) : kdict V := map (fun kv => (JStr (fst kv), snd kv)) d.

(** The payload [main] builds for checked [present] parameters. *)
Definition desired_payload (C : ConfigTemplate.collaborators) (p : ConfigTemplate.params)
    (n : string) (en : bool) (ss : list string) (ex : dict json) : dict json :=
  ConfigTemplate.build_payload n en
    (map (fun site => ConfigTemplate.get_site_id C (ConfigTemplate.insights_group p) site) ss)
    (ConfigTemplate.selector_based_on_tags p) (ConfigTemplate.description p) ex.

(** The request that deletes the requirement [uuid]. *)
Definition delete_request (C : ConfigTemplate.collaborators) (p : ConfigTemplate.params)
    (uuid : json) : ConfigTemplate.request :=
  {| ConfigTemplate.r_path :=
       ConfigTemplate.requirements_path C (ConfigTemplate.insights_group p);
     ConfigTemplate.r_method := ConfigTemplate.DELETE;
     ConfigTemplate.r_data := [("ids", JList [uuid])];
     ConfigTemplate.r_file := None;
     ConfigTemplate.r_prefix := ConfigTemplate.ndi_prefix C |}.

(** The request that updates the requirement [uuid] with [payload]. *)
Definition update_request (R : runtime) (C : ConfigTemplate.collaborators)
    (p : ConfigTemplate.params) (uuid : json) (payload : dict json) : ConfigTemplate.request :=
  {| ConfigTemplate.r_path :=
       ConfigTemplate.requirements_path C (ConfigTemplate.insights_group p)
       ++ "/" ++ str_of R uuid;
     ConfigTemplate.r_method := ConfigTemplate.PATCH;
     ConfigTemplate.r_data := dict_set payload "uuid" uuid;
     ConfigTemplate.r_file := None;
     ConfigTemplate.r_prefix := ConfigTemplate.ndi_prefix C |}.

(** The request that creates a requirement from [payload] and uploads
    [file]. *)
Definition create_request (C : ConfigTemplate.collaborators) (p : ConfigTemplate.params)
    (file : string) (payload : dict json) : ConfigTemplate.request :=
  {| ConfigTemplate.r_path :=
       ConfigTemplate.requirements_path C (ConfigTemplate.insights_group p) ++ "/file";
     ConfigTemplate.r_method := ConfigTemplate.POST;
     ConfigTemplate.r_data := dict_set payload "uploadedFileName" (JStr file);
     ConfigTemplate.r_file := Some (ConfigTemplate.abspath C file);
     ConfigTemplate.r_prefix := ConfigTemplate.ndi_prefix C |}.

(** The requests a [present] invocation issues, by what it found. *)
Definition present_requests (R : runtime) (C : ConfigTemplate.collaborators)
    (p : ConfigTemplate.params) (check_mode : bool) (n : string) (en : bool)
    (ss : list string) (f : string) (uuid : json) (ex : dict json)
    : list ConfigTemplate.request :=
  let payload := desired_payload C p n en ss ex in
  let unchanged :=
    py_eq (JDict payload) (JDict (ConfigTemplate.sanitize_dict C ex ConfigTemplate.delete_keys)) in
  if truthy uuid then
    if negb (String.eqb (attached_file R ex) (basename f)) then []
    else if negb check_mode && negb unchanged then [update_request R C p uuid payload]
    else []
  else if negb check_mode && negb unchanged then [create_request C p f payload]
  else [].

(** Whether a requirement is of the template type. *)
Definition is_template (item : json) : bool :=
  py_eq (field item "configurationType") (JStr ConfigTemplate.template_type).

(** The first site of a list with the given name. *)
Definition named_site (site_name : string) (sites : list json) : option json :=
  find (fun s => py_eq (field s "name") (JStr site_name)) sites.

End Spec.

(* ================================================================== *)
(** * A service to run the definitions on *)
(* ================================================================== *)

Module Sample.
Import Py Spec.

(** ** Answers read through the NDI object *)

Definition site (n u : string) : json := JDict [("name", JStr n); ("uuid", JStr u)].

Definition sites_answer : json :=
  JDict [("value", JDict [("data",
    JList [JDict [("assuranceEntities", JList [site "siteA" "s-1"; site "siteB" "s-2"])]])])].

Definition wrap (data : json) : json := JDict [("value", JDict [("data", data)])].

Definition leaf (b : string) (n : Z) : json := JDict [("bucket", JStr b); ("count", JNum n)].

Definition entry (b : string) (out : list json) : json :=
  JDict [("bucket", JStr b); ("output", JList out)].

Definition message (sev msg : string) : json :=
  JDict [("severity", JStr sev); ("message", JStr msg)].

Definition severity_entries : list json :=
  [ entry "EVENT_SEVERITY_CRITICAL" [leaf "EPOCH1" 3; leaf "EPOCH2" 4];
    entry "EVENT_SEVERITY_MAJOR" [leaf "EPOCH1" 1] ].

Definition resource_entries : list json :=
  [ entry "Tenant" [entry "x" [leaf "EPOCH1" 2; leaf "EPOCH2" 5]] ].

(** Two entries whose buckets end in the same word. *)
Definition repeated_category : list json :=
  [ entry "EVENT_SEVERITY_MAJOR" [leaf "EPOCH1" 3];
    entry "ANOMALY_MAJOR" [leaf "EPOCH2" 1] ].

Definition three_messages : list json :=
  [ message "ERROR" "m1"; message "warning" "m2"; message "error" "m3" ].


(** A client that knows two sites, one finished epoch for [siteA] and none
    for [siteB], and an empty list of pre-change analyses. *)
Definition client : NDI.nd_module :=
  {| NDI.answer := fun path _ =>
       if String.eqb path NDI.config_ig_path then sites_answer
       else if String.eqb path "events/insightsGroup/ig1/fabric/siteA/epochs?$size=1&$status=FINISHED"
       then wrap (JList [JDict [("epochId", JStr "e-7")]])
       else wrap (JList []) |}.

(** ** Collaborators of the module *)

Definition requirement (n u descr fname ext : string) : dict json :=
  [ ("name", JStr n); ("uuid", JStr u);
    ("configurationType", JStr ConfigTemplate.template_type);
    ("description", JStr descr);
    ("uploadedFileName", JStr fname); ("uploadedFileExtension", JStr ext) ].

(** Modelled from the spec: [NDI.set_requirement_details] is not among the
    sources.  Linear scan by name; the first matching record becomes
    [nd.existing] and its uuid is returned; with no match [nd.existing] stays
    empty and nothing is returned. *)
Definition find_requirement (requirements : list json) (name : option string)
    : json * dict json :=
  match name with
  | Some n =>
      match find (fun item => py_eq (field item "name") (JStr n)) requirements with
      | Some (JDict d) => (field (JDict d) "uuid", d)
      | _ => (JNull, [])
      end
  | None => (JNull, [])
  end.

(** Modelled from the spec: [sanitize_dict] (module_utils/nd.py) is not
    among the sources.  It strips the listed volatile fields from a record. *)
Definition strip (d : dict json) (ks : list string) : dict json :=
  filter (fun kv => negb (existsb (String.eqb (fst kv)) ks)) d.

(** A service holding one template requirement, [req1] with file [a.json]. *)
Definition service : ConfigTemplate.collaborators :=
  {| ConfigTemplate.ndi_prefix := NDI.prefix;
     ConfigTemplate.requirements_path := fun ig =>
       "config/insightsGroup/" ++ ig ++ "/requirements";
     ConfigTemplate.query_requirements := fun _ =>
       JList [JDict (requirement "req1" "u-1" "old" "a" "json")];
     ConfigTemplate.set_requirement_details := find_requirement;
     ConfigTemplate.get_site_id := fun _ s =>
       if String.eqb s "siteA" then JStr "s-1" else JNull;
     ConfigTemplate.sanitize_dict := strip;
     ConfigTemplate.response := fun r =>
       wrap (JDict (ConfigTemplate.r_data r));
     ConfigTemplate.abspath := fun f => "/work/" ++ f |}.

Definition desired (n : string) (descr : option string) (f : string)
    (st : ConfigTemplate.state_choice) : ConfigTemplate.params :=
  {| ConfigTemplate.insights_group := "ig1";
     ConfigTemplate.name := Some n;
     ConfigTemplate.description := descr;
     ConfigTemplate.enabled := Some true;
     ConfigTemplate.sites := Some ["siteA"];
     ConfigTemplate.state := st;
     ConfigTemplate.file := Some f;
     ConfigTemplate.selector_based_on_tags := false |}.

(** A client that gives every read the same answer. *)
Definition constant_client (a : json) : NDI.nd_module :=
  {| NDI.answer := fun _ _ => a |}.

(** Pre-change analyses: two of [pcv1] on site [s-1], one on another site. *)
Definition pcv (n site job : string) : json :=
  JDict [("name", JStr n); ("fabricUuid", JStr site); ("jobId", JStr job)].

Definition three_pcvs : list json :=
  [ pcv "pcv1" "s-1" "j-1"; pcv "pcv1" "s-2" "j-2"; pcv "pcv1" "s-1" "j-3" ].

(** A client for pre-change lookups: the list of analyses, the sites, and
    for each job its id as data. *)
Definition pcv_client : NDI.nd_module :=
  {| NDI.answer := fun path _ =>
       if String.eqb path "config/insightsGroup/ig1/prechangeAnalysis?$sort=-analysisSubmissionTime"
       then wrap (JList three_pcvs)
       else if String.eqb path NDI.config_ig_path then sites_answer
       else wrap (JStr path) |}.

(** A service whose requirements answer holds a string among the records. *)
Definition broken_service : ConfigTemplate.collaborators :=
  {| ConfigTemplate.ndi_prefix := NDI.prefix;
     ConfigTemplate.requirements_path := fun ig =>
       "config/insightsGroup/" ++ ig ++ "/requirements";
     ConfigTemplate.query_requirements := fun _ =>
       JList [JDict (requirement "req1" "u-1" "old" "a" "json"); JStr "oops"];
     ConfigTemplate.set_requirement_details := find_requirement;
     ConfigTemplate.get_site_id := fun _ _ => JNull;
     ConfigTemplate.sanitize_dict := strip;
     ConfigTemplate.response := fun r => wrap (JDict (ConfigTemplate.r_data r));
     ConfigTemplate.abspath := fun f => "/work/" ++ f |}.

(** The same resource with its leaves under one middle item, and spread
    over two middle items with other bucket names. *)
Definition resource_one_item : list json :=
  [ entry "Tenant" [entry "x" [leaf "EPOCH1" 2; leaf "EPOCH2" 5]] ].

Definition resource_two_items : list json :=
  [ entry "Tenant" [entry "y" [leaf "EPOCH1" 2]; entry "z" [leaf "EPOCH2" 5]] ].

(** An answer with two messages and one data item, and one with neither. *)
Definition full_answer : json :=
  JDict [("messages", JList [message "ERROR" "m1"; message "error" "m2"]);
         ("value", JDict [("data", JList [JNum 7])])].

(** Unhealthy-resource buckets that differ in case only. *)
Definition unhealthy_entries : list json :=
  [ JDict [("bucket", JStr "Tenant"); ("count", JNum 1); ("total", JNum 4)];
    JDict [("bucket", JStr "tenant"); ("count", JNum 2); ("total", JNum 5)];
    JDict [("bucket", JStr "Tenant"); ("count", JNum 3); ("total", JNum 6)] ].

(** The update of [req1] that a [present] invocation with description
    [descr] sends. *)
Definition update_req1 (descr : option string) : ConfigTemplate.request :=
  {| ConfigTemplate.r_path := "config/insightsGroup/ig1/requirements/u-1";
     ConfigTemplate.r_method := ConfigTemplate.PATCH;
     ConfigTemplate.r_data :=
       dict_set (ConfigTemplate.build_payload "req1" true [JStr "s-1"] false descr
                   (requirement "req1" "u-1" "old" "a" "json"))
                "uuid" (JStr "u-1");
     ConfigTemplate.r_file := None;
     ConfigTemplate.r_prefix := NDI.prefix |}.

End Sample.

(* ================================================================== *)
(** * Properties *)
(* ================================================================== *)

Import Py Spec.

(** ** Dicts *)

Section DictFacts.
Context {V : Type}.
Implicit Types (d : dict V) (k : string) (v : V).

Lemma dict_get_set_eq d k v : dict_get (dict_set d k v) k = Some v.
Proof.
  induction d as [|[k' v'] d IH]; simpl.
  - now rewrite String.eqb_refl.
  - destruct (String.eqb_spec k' k) as [E|E]; simpl.
    + subst. now rewrite String.eqb_refl.
    + apply String.eqb_neq in E. now rewrite E.
Qed.

Lemma dict_get_set_ne d k k' v : k <> k' -> dict_get (dict_set d k v) k' = dict_get d k'.
Proof.
  intros N. induction d as [|[k0 v0] d IH]; simpl.
  - apply String.eqb_neq in N. now rewrite N.
  - destruct (String.eqb_spec k0 k) as [E|E]; simpl.
    + subst k0. apply String.eqb_neq in N. now rewrite N.
    + now rewrite IH.
Qed.

Lemma dict_set_set d k v w : dict_set (dict_set d k v) k w = dict_set d k w.
Proof.
  induction d as [|[k0 v0] d IH]; simpl.
  - now rewrite String.eqb_refl.
  - destruct (String.eqb_spec k0 k) as [E|E]; simpl.
    + subst. now rewrite String.eqb_refl.
    + apply String.eqb_neq in E. rewrite E. now rewrite IH.
Qed.

Lemma dict_set_same d k v : dict_get d k = Some v -> dict_set d k v = d.
Proof.
  induction d as [|[k0 v0] d IH]; simpl; [discriminate |].
  destruct (String.eqb_spec k0 k) as [E|E]; [congruence |].
  intros G. now rewrite IH.
Qed.

Lemma keys_set d k v k' : In k' (keys (dict_set d k v)) <-> k' = k \/ In k' (keys d).
Proof.
  induction d as [|[k0 v0] d IH]; simpl.
  - intuition.
  - destruct (String.eqb_spec k0 k) as [E|E]; simpl.
    + subst. intuition.
    + rewrite IH. intuition.
Qed.

Lemma NoDup_keys_set d k v : NoDup (keys d) -> NoDup (keys (dict_set d k v)).
Proof.
  induction d as [|[k0 v0] d IH]; simpl; intros H.
  - constructor; [intros [] | constructor].
  - inversion H as [|? ? Hn Hd]; subst.
    destruct (String.eqb_spec k0 k) as [E|E]; simpl.
    + now constructor.
    + constructor; [| now apply IH].
      rewrite keys_set. intros [E'|I]; [congruence | contradiction].
Qed.

Lemma dict_get_keys d k : In k (keys d) <-> exists v, dict_get d k = Some v.
Proof.
  induction d as [|[k0 v0] d IH]; simpl.
  - split; [intros [] | intros [v H]; discriminate].
  - destruct (String.eqb_spec k0 k) as [E|E].
    + split; [eauto | auto].
    + rewrite <- IH. intuition.
Qed.

Lemma In_dict_get d k v : NoDup (keys d) -> In (k, v) d <-> dict_get d k = Some v.
Proof.
  induction d as [|[k0 v0] d IH]; simpl; intros H.
  - split; [intros [] | discriminate].
  - inversion H as [|? ? Hn Hd]; subst.
    destruct (String.eqb_spec k0 k) as [E|E].
    + subst k0. split.
      * intros [E|I]; [congruence |].
        exfalso. apply Hn. change k with (fst (k, v)). now apply in_map.
      * intros E. left. congruence.
    + rewrite <- (IH Hd). split; [intros [E'|I]; [congruence | assumption] | auto].
Qed.

End DictFacts.

(** ** Loops of assignments *)

Section AssignAll.
Context {A V : Type} (key : A -> string) (val : A -> V).

Lemma assign_all_keys (l : list A) (d0 : dict V) k :
  In k (keys (assign_all key val l d0)) <-> In k (keys d0) \/ In k (map key l).
Proof.
  revert d0. induction l as [|x l IH]; intros d0; simpl.
  - intuition.
  - unfold assign_all in *. simpl. rewrite IH, keys_set. intuition.
Qed.

Lemma assign_all_NoDup (l : list A) (d0 : dict V) :
  NoDup (keys d0) -> NoDup (keys (assign_all key val l d0)).
Proof.
  revert d0. induction l as [|x l IH]; intros d0 H; simpl; [assumption |].
  apply IH. now apply NoDup_keys_set.
Qed.

Lemma assign_all_get_other (l : list A) (d0 : dict V) k :
  (forall y, In y l -> key y <> k) ->
  dict_get (assign_all key val l d0) k = dict_get d0 k.
Proof.
  revert d0. induction l as [|x l IH]; intros d0 H; simpl; [reflexivity |].
  unfold assign_all in *. simpl. rewrite IH by (intros; apply H; now right).
  apply dict_get_set_ne. apply H. now left.
Qed.

Lemma assign_all_app (l1 l2 : list A) (d0 : dict V) :
  assign_all key val (l1 ++ l2) d0 = assign_all key val l2 (assign_all key val l1 d0).
Proof. unfold assign_all. apply fold_left_app. Qed.

Lemma assign_all_get_last (l : list A) (d0 : dict V) k x :
  last_with key k l x -> dict_get (assign_all key val l d0) k = Some (val x).
Proof.
  intros (l1 & l2 & -> & <- & H).
  rewrite assign_all_app. change (x :: l2) with ([x] ++ l2)%list.
  rewrite assign_all_app, assign_all_get_other by assumption.
  apply dict_get_set_eq.
Qed.

Lemma last_with_exists (l : list A) k : In k (map key l) -> exists x, last_with key k l x.
Proof.
  induction l as [|x l IH]; simpl; [intros [] |].
  intros H. destruct (in_dec string_dec k (map key l)) as [I|N].
  - destruct (IH I) as (y & l1 & l2 & -> & E & Hl).
    exists y, (x :: l1), l2. repeat split; auto.
  - destruct H as [E|I]; [| contradiction].
    exists x, [], l. repeat split; auto.
    intros y Hy E'. apply N. rewrite <- E'. now apply in_map.
Qed.

Lemma last_with_In (l : list A) k x : last_with key k l x -> In x l /\ key x = k.
Proof.
  intros (l1 & l2 & -> & E & _). split; [| assumption].
  apply in_or_app. right. now left.
Qed.

(** With keys that are pairwise distinct, every element is the last one
    with its key. *)
Lemma NoDup_last_with (l : list A) x :
  NoDup (map key l) -> In x l -> last_with key (key x) l x.
Proof.
  intros N I. destruct (in_split _ _ I) as (l1 & l2 & ->).
  exists l1, l2. repeat split; auto.
  intros y Hy E. rewrite map_app in N. simpl in N.
  apply NoDup_remove_2 in N. apply N. apply in_or_app. right.
  rewrite <- E. now apply in_map.
Qed.

Lemma assign_all_get (l : list A) k v :
  dict_get (assign_all key val l []) k = Some v <->
  exists x, last_with key k l x /\ val x = v.
Proof.
  split.
  - intros G.
    assert (I : In k (keys (assign_all key val l []))) by (apply dict_get_keys; eauto).
    apply assign_all_keys in I. destruct I as [[]|I].
    destruct (last_with_exists l k I) as [x Hx]. exists x. split; [assumption |].
    rewrite (assign_all_get_last l [] k x Hx) in G. congruence.
  - intros (x & Hx & <-). now apply assign_all_get_last.
Qed.

End AssignAll.

(** ** Reading well-formed entries *)

Lemma py_get_field o k : is_dict o = true -> py_get o k = Ok (field o k).
Proof. destruct o; simpl; intros H; try discriminate; reflexivity. Qed.

Lemma py_lower_text R v : is_str v = true -> py_lower R v = Ok (str_lower R (text v)).
Proof. destruct v; simpl; intros H; try discriminate; reflexivity. Qed.

Lemma py_iter_items v : is_list v = true -> py_iter v = Ok (items v).
Proof. destruct v; simpl; intros H; try discriminate; reflexivity. Qed.

Lemma py_eq_str v s : py_eq v (JStr s) = true <-> v = JStr s.
Proof.
  destruct v; simpl; try (split; [discriminate | intros E; discriminate E]).
  rewrite String.eqb_eq. split; congruence.
Qed.

Lemma for_each_fold {A S} (l : list A) (s : S) (body : S -> A -> res S) (step : S -> A -> S) :
  (forall s x, In x l -> body s x = Ok (step s x)) ->
  for_each l s body = Ok (fold_left step l s).
Proof.
  revert s. induction l as [|x l IH]; intros s H; simpl; [reflexivity |].
  rewrite H by now left. simpl. apply IH. intros; apply H; now right.
Qed.

Section Normalizers.
Variable R : runtime.

(** The innermost loop of both bucket normalizers: the leaves are assigned,
    one after the other, into the inner mapping of category [c]. *)
Lemma leaves_loop (c : string) (leaves : list json) :
  forall (result : dict (dict json)) (inner : dict json),
    forallb wf_leaf leaves = true ->
    dict_get result c = Some inner ->
    for_each leaves result (fun result output =>
      b <- py_get output "bucket" ;;
      epoch <- py_lower R b ;;
      epoch_count <- py_get output "count" ;;
      NDI.set_inner result c epoch epoch_count)
    = Ok (dict_set result c (assign_all (epoch_key R) count_of leaves inner)).
Proof.
  induction leaves as [|o leaves IH]; intros result inner W G; simpl.
  - f_equal. symmetry. now apply dict_set_same.
  - simpl in W. apply andb_prop in W as [Wo W].
    unfold wf_leaf in Wo. apply andb_prop in Wo as [Wd Ws].
    rewrite (py_get_field _ _ Wd). simpl.
    rewrite (py_lower_text _ _ Ws). simpl.
    rewrite (py_get_field _ _ Wd). simpl.
    unfold NDI.set_inner at 1. rewrite G. cbn [bind].
    rewrite (IH _ (dict_set inner (epoch_key R o) (count_of o)) W)
      by apply dict_get_set_eq.
    now rewrite dict_set_set.
Qed.

Lemma format_event_severity_assign (entries : list json) :
  forallb wf_severity_entry entries = true ->
  NDI.format_event_severity R (JList entries)
  = Ok (assign_all (severity_category R) (inner_of R severity_leaves) entries []).
Proof.
  intros W. unfold NDI.format_event_severity. simpl.
  apply for_each_fold. intros result each I.
  rewrite forallb_forall in W. specialize (W each I).
  unfold wf_severity_entry in W.
  apply andb_prop in W as [W Wl]. apply andb_prop in W as [W Wo].
  apply andb_prop in W as [Wd Ws].
  rewrite (py_get_field _ _ Wd). simpl.
  rewrite (py_lower_text _ _ Ws). simpl.
  rewrite (py_get_field _ _ Wd). simpl.
  rewrite (py_iter_items _ Wo). simpl.
  rewrite (leaves_loop _ _ _ [] Wl) by apply dict_get_set_eq.
  now rewrite dict_set_set.
Qed.

Lemma nested_loop (c : string) (outputs : list json) :
  forall (result : dict (dict json)) (inner : dict json),
    forallb wf_nested outputs = true ->
    dict_get result c = Some inner ->
    for_each outputs result (fun result output =>
      oo <- py_get output "output" ;;
      epochs <- py_iter oo ;;
      for_each epochs result (fun result epoch =>
        b <- py_get epoch "bucket" ;;
        epoch_type <- py_lower R b ;;
        count <- py_get epoch "count" ;;
        NDI.set_inner result c epoch_type count))
    = Ok (dict_set result c
            (assign_all (epoch_key R) count_of
               (flat_map (fun o => items (field o "output")) outputs) inner)).
Proof.
  induction outputs as [|o outputs IH]; intros result inner W G; simpl.
  - f_equal. symmetry. now apply dict_set_same.
  - simpl in W. apply andb_prop in W as [Wo W].
    unfold wf_nested in Wo. apply andb_prop in Wo as [Wo Wl].
    apply andb_prop in Wo as [Wd Wi].
    rewrite (py_get_field _ _ Wd). simpl.
    rewrite (py_iter_items _ Wi). simpl.
    rewrite (leaves_loop _ _ _ inner Wl G). simpl.
    rewrite (IH _ (assign_all (epoch_key R) count_of (items (field o "output")) inner) W)
      by apply dict_get_set_eq.
    now rewrite dict_set_set, assign_all_app.
Qed.

Lemma format_impacted_resource_assign (entries : list json) :
  forallb wf_resource_entry entries = true ->
  NDI.format_impacted_resource R (JList entries)
  = Ok (assign_all (resource_category R) (inner_of R resource_leaves) entries []).
Proof.
  intros W. unfold NDI.format_impacted_resource. simpl.
  apply for_each_fold. intros result each I.
  rewrite forallb_forall in W. specialize (W each I).
  unfold wf_resource_entry in W.
  apply andb_prop in W as [W Wl]. apply andb_prop in W as [W Wo].
  apply andb_prop in W as [Wd Ws].
  rewrite (py_get_field _ _ Wd). simpl.
  rewrite (py_lower_text _ _ Ws). simpl.
  rewrite (py_get_field _ _ Wd). simpl.
  rewrite (py_iter_items _ Wo). simpl.
  rewrite (nested_loop _ _ _ [] Wl) by apply dict_get_set_eq.
  now rewrite dict_set_set.
Qed.

Lemma format_messages_assign (msgs : list json) :
  forallb wf_message msgs = true ->
  NDI.format_messages R (JList msgs)
  = Ok (assign_all (severity_key R) (fun m => field m "message") msgs []).
Proof.
  intros W. unfold NDI.format_messages. simpl.
  apply for_each_fold. intros result m I.
  rewrite forallb_forall in W. specialize (W m I).
  unfold wf_message in W. apply andb_prop in W as [Wd Ws].
  rewrite !(py_get_field _ _ Wd). simpl.
  now rewrite (py_lower_text _ _ Ws).
Qed.

End Normalizers.

(** ** The pairs of a flattened mapping *)

Lemma In_result_pairs (r : dict (dict json)) c e :
  In (c, e) (result_pairs r) <-> exists inner, In (c, inner) r /\ In e (keys inner).
Proof.
  unfold result_pairs. rewrite in_flat_map. split.
  - intros ([k inner] & I & M). simpl in M. apply in_map_iff in M as (e' & E & Ie).
    inversion E; subst. eauto.
  - intros (inner & I & Ie). exists (c, inner). split; [assumption |].
    simpl. apply in_map_iff. eauto.
Qed.

Section Pairs.
Variable R : runtime.
Variables (category : json -> string) (leaves : json -> list json).

(** The pairs of the mapping are those of the last entry of each category. *)
Lemma pairs_last_wins (entries : list json) c e :
  In (c, e) (result_pairs (assign_all category (inner_of R leaves) entries [])) <->
  exists each, last_with category c entries each /\ In e (map (epoch_key R) (leaves each)).
Proof.
  rewrite In_result_pairs. split.
  - intros (inner & I & Ie).
    apply In_dict_get in I; [| apply assign_all_NoDup; constructor].
    apply assign_all_get in I as (each & L & <-).
    exists each. split; [assumption |].
    unfold inner_of in Ie. apply assign_all_keys in Ie as [[]|Ie]. assumption.
  - intros (each & L & Ie). exists (inner_of R leaves each). split.
    + apply In_dict_get; [apply assign_all_NoDup; constructor |].
      now apply assign_all_get_last.
    + unfold inner_of. apply assign_all_keys. now right.
Qed.

(** With pairwise distinct category keys nothing is replaced: the pairs of
    the mapping are the leaf pairs of the input. *)
Lemma pairs_distinct (entries : list json) c e :
  NoDup (map category entries) ->
  In (c, e) (result_pairs (assign_all category (inner_of R leaves) entries [])) <->
  In (c, e) (leaf_pairs R category leaves entries).
Proof.
  intros N. rewrite pairs_last_wins. unfold leaf_pairs. rewrite in_flat_map. split.
  - intros (each & L & Ie). apply last_with_In in L as [I <-].
    exists each. split; [assumption |].
    apply in_map_iff in Ie as (l & <- & Il). apply in_map_iff. eauto.
  - intros (each & I & M). apply in_map_iff in M as (l & E & Il).
    inversion E; subst. exists each. split.
    + now apply NoDup_last_with.
    + now apply in_map.
Qed.

End Pairs.

(** ** Claims on the normalizers *)

(** C1 (as amended).  For well-formed inputs, [format_event_severity] and
    [format_impacted_resource] return a mapping that holds, for each
    category key, the (category key, epoch key) pairs of the last entry with
    that key; when the category keys of the entries are pairwise distinct,
    the set of pairs of the mapping is the set of leaf bucket pairs of the
    input. *)
Theorem flatten_keeps_leaf_pairs (R : runtime) (severity resource : list json) :
  forallb wf_severity_entry severity = true ->
  forallb wf_resource_entry resource = true ->
  (exists r, NDI.format_event_severity R (JList severity) = Ok r /\
     (forall c e, In (c, e) (result_pairs r) <->
        exists each, last_with (severity_category R) c severity each /\
                     In e (map (epoch_key R) (severity_leaves each))) /\
     (NoDup (map (severity_category R) severity) ->
      forall c e, In (c, e) (result_pairs r) <->
        In (c, e) (leaf_pairs R (severity_category R) severity_leaves severity))) /\
  (exists r, NDI.format_impacted_resource R (JList resource) = Ok r /\
     (forall c e, In (c, e) (result_pairs r) <->
        exists each, last_with (resource_category R) c resource each /\
                     In e (map (epoch_key R) (resource_leaves each))) /\
     (NoDup (map (resource_category R) resource) ->
      forall c e, In (c, e) (result_pairs r) <->
        In (c, e) (leaf_pairs R (resource_category R) resource_leaves resource))).
Proof.
  intros Ws Wr. split.
  - eexists. split; [now apply format_event_severity_assign |]. split.
    + intros c e. apply pairs_last_wins.
    + intros N c e. now apply pairs_distinct.
  - eexists. split; [now apply format_impacted_resource_assign |]. split.
    + intros c e. apply pairs_last_wins.
    + intros N c e. now apply pairs_distinct.
Qed.

Lemma flatten_keeps_leaf_pairs_witness :
  (exists r, NDI.format_event_severity ascii_runtime (JList Sample.severity_entries) = Ok r /\
     forall c e, In (c, e) (result_pairs r) <->
                 In (c, e) (leaf_pairs ascii_runtime (severity_category ascii_runtime)
                              severity_leaves Sample.severity_entries)) /\
  (exists r, NDI.format_impacted_resource ascii_runtime (JList Sample.resource_entries) = Ok r /\
     forall c e, In (c, e) (result_pairs r) <->
                 In (c, e) (leaf_pairs ascii_runtime (resource_category ascii_runtime)
                              resource_leaves Sample.resource_entries)).
Proof.
  destruct (flatten_keeps_leaf_pairs ascii_runtime Sample.severity_entries
              Sample.resource_entries eq_refl eq_refl)
    as ((r1 & E1 & _ & D1) & (r2 & E2 & _ & D2)).
  split.
  - exists r1. split; [exact E1 |]. apply D1.
    repeat constructor; simpl; intuition discriminate.
  - exists r2. split; [exact E2 |]. apply D2.
    repeat constructor; simpl; intuition discriminate.
Defined.

(** C1 as stated fails: two well-formed entries whose buckets end in the
    same word share a category key, and the later entry replaces the leaves
    of the earlier one. *)
Lemma flatten_drops_leaf_of_repeated_category :
  forallb wf_severity_entry Sample.repeated_category = true /\
  NDI.format_event_severity ascii_runtime (JList Sample.repeated_category)
  = Ok [("major", [("epoch2", JNum 1)])] /\
  In ("major", "epoch1")
     (leaf_pairs ascii_runtime (severity_category ascii_runtime) severity_leaves
        Sample.repeated_category) /\
  ~ In ("major", "epoch1") (result_pairs [("major", [("epoch2", JNum 1)])]).
Proof.
  repeat split.
  - simpl. now left.
  - simpl. intros [E|[]]. discriminate E.
Qed.

(** C6.  For a list of messages, each with a string severity,
    [format_messages] returns a mapping with exactly one entry per distinct
    lower-cased severity, whose value is the message of the last input
    message with that severity. *)
Theorem format_messages_last_wins (R : runtime) (msgs : list json) :
  forallb wf_message msgs = true ->
  exists r, NDI.format_messages R (JList msgs) = Ok r /\
    NoDup (keys r) /\
    (forall k, In k (keys r) <-> In k (map (severity_key R) msgs)) /\
    (forall k v, dict_get r k = Some v <->
                 exists m, last_with (severity_key R) k msgs m /\ field m "message" = v).
Proof.
  intros W. eexists. split; [now apply format_messages_assign |]. repeat split.
  - apply assign_all_NoDup. constructor.
  - intros I. apply assign_all_keys in I as [[]|I]. assumption.
  - intros I. apply assign_all_keys. now right.
  - apply assign_all_get.
  - apply assign_all_get.
Qed.

Lemma format_messages_last_wins_witness :
  exists r, NDI.format_messages ascii_runtime (JList Sample.three_messages) = Ok r /\
    NoDup (keys r) /\
    (forall k, In k (keys r) <-> In k (map (severity_key ascii_runtime) Sample.three_messages)) /\
    (forall k v, dict_get r k = Some v <->
                 exists m, last_with (severity_key ascii_runtime) k Sample.three_messages m /\
                           field m "message" = v).
Proof.
  apply (format_messages_last_wins ascii_runtime Sample.three_messages). reflexivity.
Defined.













(** ** Claims on the lookups *)

Lemma scan_sites_find (sites : list json) (site_name : string) :
  Forall wf_site sites ->
  NDI.scan_sites sites site_name
  = Ok (match find (fun s => py_eq (field s "name") (JStr site_name)) sites with
        | Some s => field s "uuid"
        | None => JNull
        end).
Proof.
  intros W. induction W as [|site sites (d & n & u & -> & Hn & Hu) W IH]; simpl; [reflexivity |].
  rewrite Hn. simpl.
  destruct (py_eq n (JStr site_name)); [simpl; now rewrite Hu | assumption].
Qed.

Lemma get_site_id_find (nd : NDI.nd_module) site_name kwargs log sites :
  assurance_entities (NDI.answer nd NDI.config_ig_path kwargs) = Ok (JList sites) ->
  Forall wf_site sites ->
  NDI.get_site_id nd site_name kwargs log
  = (Done (match find (fun s => py_eq (field s "name") (JStr site_name)) sites with
           | Some s => field s "uuid"
           | None => JNull
           end),
     (log ++ [{| NDI.c_path := NDI.config_ig_path; NDI.c_prefix := kwargs |}])%list).
Proof.
  intros A W. unfold NDI.get_site_id, NDI.query_obj, ebind, lift.
  unfold assurance_entities in A.
  destruct (py_getitem (NDI.answer nd NDI.config_ig_path kwargs) "value") as [v|]; simpl in *;
    [| discriminate].
  destruct (py_getitem v "data") as [dt|]; simpl in *; [| discriminate].
  destruct (py_first dt) as [x|]; simpl in *; [| discriminate].
  rewrite A. simpl. now rewrite (scan_sites_find _ _ W).
Qed.

(** C9.  Against a fetched site list whose sites carry a name and a uuid,
    [get_site_id] returns the uuid of a site whose name is exactly the given
    one when there is such a site, and [None], without raising, when there
    is none. *)
Theorem get_site_id_exact_match (nd : NDI.nd_module) site_name kwargs log sites :
  assurance_entities (NDI.answer nd NDI.config_ig_path kwargs) = Ok (JList sites) ->
  Forall wf_site sites ->
  ((exists s, In s sites /\ field s "name" = JStr site_name) ->
   exists s, In s sites /\ field s "name" = JStr site_name /\
             fst (NDI.get_site_id nd site_name kwargs log) = Done (field s "uuid")) /\
  ((forall s, In s sites -> field s "name" <> JStr site_name) ->
   fst (NDI.get_site_id nd site_name kwargs log) = Done JNull).
Proof.
  intros A W. rewrite (get_site_id_find _ _ _ _ _ A W). simpl. split.
  - intros (s & I & E).
    destruct (find _ sites) as [s'|] eqn:F.
    + apply find_some in F as [I' E']. apply py_eq_str in E'. eauto.
    + apply find_none with (x := s) in F; [| assumption].
      rewrite E in F. simpl in F. now rewrite String.eqb_refl in F.
  - intros N. destruct (find _ sites) as [s'|] eqn:F; [| reflexivity].
    apply find_some in F as [I' E']. apply py_eq_str in E'. now apply N in I'.
Qed.

Lemma get_site_id_exact_match_witness :
  ((exists s, In s [Sample.site "siteA" "s-1"; Sample.site "siteB" "s-2"] /\
              field s "name" = JStr "siteB") ->
   exists s, In s [Sample.site "siteA" "s-1"; Sample.site "siteB" "s-2"] /\
             field s "name" = JStr "siteB" /\
             fst (NDI.get_site_id Sample.client "siteB" None []) = Done (field s "uuid")) /\
  ((forall s, In s [Sample.site "siteA" "s-1"; Sample.site "siteB" "s-2"] ->
              field s "name" <> JStr "siteB") ->
   fst (NDI.get_site_id Sample.client "siteB" None []) = Done JNull).
Proof.
  apply (get_site_id_exact_match Sample.client "siteB" None []
           [Sample.site "siteA" "s-1"; Sample.site "siteB" "s-2"]).
  - reflexivity.
  - repeat constructor; do 3 eexists; repeat split; reflexivity.
Defined.

(** C8 (as amended).  When the filtered epoch list the service answers with
    is non-empty, [get_epochs] returns its first record after one read; when
    the list is empty it raises [IndexError]: there is no absence value. *)
Theorem get_epochs_first_or_raises (nd : NDI.nd_module) ig_name site_name log epochs :
  data_of (NDI.answer nd (NDI.event_insight_group_path ig_name site_name
                            ++ "/epochs?$size=1&$status=FINISHED") (Some NDI.prefix))
  = Ok (JList epochs) ->
  snd (NDI.get_epochs nd ig_name site_name log)
  = (log ++ [{| NDI.c_path := NDI.event_insight_group_path ig_name site_name
                               ++ "/epochs?$size=1&$status=FINISHED";
                NDI.c_prefix := Some NDI.prefix |}])%list /\
  fst (NDI.get_epochs nd ig_name site_name log)
  = match epochs with
    | epoch :: _ => Done epoch
    | [] => Raised IndexError
    end.
Proof.
  intros A. unfold NDI.get_epochs, NDI.query_obj, ebind, lift.
  unfold data_of in A.
  destruct (py_getitem (NDI.answer nd _ _) "value") as [v|]; simpl in *; [| discriminate].
  rewrite A. simpl. split; [reflexivity |]. now destruct epochs.
Qed.

Lemma get_epochs_first_or_raises_witness :
  snd (NDI.get_epochs Sample.client "ig1" "siteA" [])
  = [{| NDI.c_path := "events/insightsGroup/ig1/fabric/siteA/epochs?$size=1&$status=FINISHED";
        NDI.c_prefix := Some NDI.prefix |}] /\
  fst (NDI.get_epochs Sample.client "ig1" "siteA" [])
  = Done (JDict [("epochId", JStr "e-7")]).
Proof.
  apply (get_epochs_first_or_raises Sample.client "ig1" "siteA" []
           [JDict [("epochId", JStr "e-7")]]).
  reflexivity.
Defined.

(** C8 as stated fails: for a site whose filtered epoch list is empty the
    lookup ends in [IndexError], not in a value that stands for "not found". *)
Lemma get_epochs_raises_on_empty_list :
  data_of (NDI.answer Sample.client
             "events/insightsGroup/ig1/fabric/siteB/epochs?$size=1&$status=FINISHED"
             (Some NDI.prefix)) = Ok (JList []) /\
  fst (NDI.get_epochs Sample.client "ig1" "siteB" []) = Raised IndexError /\
  (forall v, fst (NDI.get_epochs Sample.client "ig1" "siteB" []) <> Done v).
Proof.
  split; [reflexivity |]. split; [reflexivity |]. intros v. discriminate.
Qed.

(** C3 (as amended).  A call of [query_pcv] without a site name or without a
    job name issues exactly one read, the list of pre-change analyses that
    [query_pcvs] fetches first, and then, once that list is read, fails with
    the message that both names are required; no site or job lookup is
    issued. *)
Theorem query_pcv_missing_name (R : runtime) (nd : NDI.nd_module) ig_name site_name pcv_name log :
  site_name = None \/ pcv_name = None ->
  snd (NDI.query_pcv R nd ig_name site_name pcv_name log)
  = (log ++ [{| NDI.c_path := NDI.config_ig_path ++ "/" ++ ig_name
                               ++ "/prechangeAnalysis?$sort=-analysisSubmissionTime";
                NDI.c_prefix := Some NDI.prefix |}])%list /\
  (forall data,
     data_of (NDI.answer nd (NDI.config_ig_path ++ "/" ++ ig_name
                               ++ "/prechangeAnalysis?$sort=-analysisSubmissionTime")
                (Some NDI.prefix)) = Ok data ->
     fst (NDI.query_pcv R nd ig_name site_name pcv_name log)
     = Failed "site name and prechange validation job name are required").
Proof.
  intros H. unfold NDI.query_pcv, NDI.query_pcvs, NDI.query_obj, ebind, lift, data_of.
  destruct (v <- py_getitem (NDI.answer nd _ _) "value" ;; py_getitem v "data") as [data|e];
    simpl.
  - destruct H as [-> | ->]; [destruct pcv_name | destruct site_name];
      simpl; (split; [reflexivity | reflexivity]).
  - split; [reflexivity | discriminate].
Qed.

Lemma query_pcv_missing_name_witness :
  snd (NDI.query_pcv ascii_runtime Sample.client "ig1" None (Some "pcv1") [])
  = [{| NDI.c_path := "config/insightsGroup/ig1/prechangeAnalysis?$sort=-analysisSubmissionTime";
        NDI.c_prefix := Some NDI.prefix |}] /\
  (forall data,
     data_of (NDI.answer Sample.client
                "config/insightsGroup/ig1/prechangeAnalysis?$sort=-analysisSubmissionTime"
                (Some NDI.prefix)) = Ok data ->
     fst (NDI.query_pcv ascii_runtime Sample.client "ig1" None (Some "pcv1") [])
     = Failed "site name and prechange validation job name are required").
Proof.
  apply (query_pcv_missing_name ascii_runtime Sample.client "ig1" None (Some "pcv1") []).
  now left.
Defined.

(** C3 as stated fails: with the site name missing, a read has been issued
    by the time the call fails. *)
Lemma query_pcv_reads_before_failing :
  NDI.query_pcv ascii_runtime Sample.client "ig1" None (Some "pcv1") []
  = (Failed "site name and prechange validation job name are required",
     [{| NDI.c_path := "config/insightsGroup/ig1/prechangeAnalysis?$sort=-analysisSubmissionTime";
         NDI.c_prefix := Some NDI.prefix |}]) /\
  snd (NDI.query_pcv ascii_runtime Sample.client "ig1" None (Some "pcv1") []) <> [].
Proof. split; [reflexivity | discriminate]. Qed.

(** ** Claims on the reconciliation *)

Import ConfigTemplate.

Lemma build_payload_description n en uuids sel descr (ex : dict json) :
  dict_get (build_payload n en uuids sel descr ex) "description"
  = let cleared := if truthy (field (JDict ex) "description")
                   then Some (JStr " ") else None in
    match descr with
    | Some d => if String.eqb d "" then cleared else Some (JStr d)
    | None => cleared
    end.
Proof.
  unfold build_payload. cbn [field].
  destruct descr as [d|]; [destruct (String.eqb d "") |]; cbn [negb];
    try destruct (truthy _); reflexivity.
Qed.

(** C2.  With [state=present] and a uuid located, a desired file whose
    basename differs from the attached file of the existing record makes the
    invocation fail, in check mode or not, with no request issued. *)
Theorem file_mismatch_fails_before_request (R : runtime) (C : collaborators)
    (p : params) (check_mode : bool) (log : list request) n en ss f uuid ex :
  required_if p = inr (CPresent n en ss f) ->
  locate C p = Ok (uuid, ex) ->
  truthy uuid = true ->
  basename f <> attached_file R ex ->
  main R C p check_mode log
  = (Failed (file_mismatch_msg (basename f) (attached_file R ex)), log).
Proof.
  intros V L T N. unfold main. rewrite V. unfold ebind at 1, lift at 1. rewrite L.
  cbn iota beta. rewrite T. unfold ebind at 1.
  unfold attached_file, field in N |- *. cbn beta zeta.
  match goal with
  | |- context [String.eqb ?a (basename f)] =>
      destruct (String.eqb_spec a (basename f)) as [E|E]
  end; [now elim N | reflexivity].
Qed.

Lemma file_mismatch_fails_before_request_witness :
  main ascii_runtime Sample.service
       (Sample.desired "req1" None "dir/b.json" Present) false []
  = (Failed "File provided 'b.json' is not matching file 'a.json' of existing requirement", []).
Proof.
  apply (file_mismatch_fails_before_request ascii_runtime Sample.service
           (Sample.desired "req1" None "dir/b.json" Present) false []
           "req1" true ["siteA"] "dir/b.json" (JStr "u-1")
           (Sample.requirement "req1" "u-1" "old" "a" "json")).
  - reflexivity.
  - reflexivity.
  - reflexivity.
  - vm_compute. discriminate.
Defined.

(** C4 (as amended).  In check mode no request is issued, whatever the
    parameters.  With [state=absent] and a uuid located the report has an
    empty [existing] and the sanitized record as [previous].  With
    [state=present], when the file-name check does not fail and the basename
    of the file has a dot, the report's [existing] is the desired payload
    with the file's name and extension attached, as they are to
    [previous]. *)
Theorem check_mode_issues_no_request (R : runtime) (C : collaborators)
    (p : params) (check_mode : bool) (log : list request) :
  check_mode = true ->
  snd (main R C p check_mode log) = log /\
  (forall n uuid ex,
     required_if p = inr (CAbsent n) -> locate C p = Ok (uuid, ex) -> truthy uuid = true ->
     exists rep, fst (main R C p check_mode log) = Done rep /\
       existing rep = [] /\ previous rep = sanitize_dict C ex delete_keys) /\
  (forall n en ss f uuid ex stem ext,
     required_if p = inr (CPresent n en ss f) -> locate C p = Ok (uuid, ex) ->
     (truthy uuid = true -> basename f = attached_file R ex) ->
     rsplit1 "." (basename f) = Some (stem, ext) ->
     exists rep, fst (main R C p check_mode log) = Done rep /\
       existing rep
       = attach_file stem ext
           (build_payload n en (map (get_site_id C (insights_group p)) ss)
              (selector_based_on_tags p) (description p) ex) /\
       previous rep = attach_file stem ext (sanitize_dict C ex delete_keys)).
Proof.
  intros ->. split; [| split].
  - unfold main. destruct (required_if p) as [msg|view]; [reflexivity |].
    unfold ebind at 1, lift at 1.
    destruct (locate C p) as [[uuid ex]|e]; [| reflexivity]. cbn iota beta.
    destruct view as [|n|n en ss f].
    + reflexivity.
    + destruct (truthy uuid); reflexivity.
    + unfold ebind at 1.
      destruct (truthy uuid); [destruct (negb _) |]; try reflexivity;
        cbn; destruct (rsplit1 _ _) as [[stem ext]|]; reflexivity.
  - intros n uuid ex V L T. unfold main. rewrite V.
    unfold ebind at 1, lift at 1. rewrite L. cbn iota beta. rewrite T.
    eexists. split; [reflexivity |]. split; reflexivity.
  - intros n en ss f uuid ex stem ext V L M S. unfold main. rewrite V.
    unfold ebind at 1, lift at 1. rewrite L. cbn iota beta. unfold ebind at 1.
    assert (G : (if truthy uuid
                 then if negb (String.eqb (attached_file R ex) (basename f))
                      then fail_json (file_mismatch_msg (basename f) (attached_file R ex))
                      else ret tt
                 else ret tt) log = (Done tt, log) :> outcome unit * list request).
    { destruct (truthy uuid); [| reflexivity].
      rewrite <- (M eq_refl), String.eqb_refl. reflexivity. }
    unfold attached_file, field in G. cbn beta zeta. rewrite G. clear G.
    cbn. rewrite S. cbn.
    eexists. split; [reflexivity |]. split; reflexivity.
Qed.

Lemma check_mode_issues_no_request_witness :
  snd (main ascii_runtime Sample.service
         (Sample.desired "req1" (Some "d") "dir/a.json" Present) true []) = [] /\
  exists rep,
    fst (main ascii_runtime Sample.service
           (Sample.desired "req1" (Some "d") "dir/a.json" Present) true []) = Done rep /\
    existing rep
    = attach_file "a" "json"
        (build_payload "req1" true [JStr "s-1"] false (Some "d")
           (Sample.requirement "req1" "u-1" "old" "a" "json")).
Proof.
  destruct (check_mode_issues_no_request ascii_runtime Sample.service
              (Sample.desired "req1" (Some "d") "dir/a.json" Present) true [] eq_refl)
    as (H1 & _ & H3).
  split; [exact H1 |].
  destruct (H3 "req1" true ["siteA"] "dir/a.json" (JStr "u-1")
              (Sample.requirement "req1" "u-1" "old" "a" "json") "a" "json"
              eq_refl eq_refl (fun _ => eq_refl) eq_refl) as (rep & E & X & _).
  exists rep. split; [exact E | exact X].
Defined.

(** C4 as stated fails: a dry run with [state=present] whose file does not
    match the attached one ends in the file-name failure; no payload is
    reported. *)
Lemma check_mode_mismatch_reports_nothing :
  main ascii_runtime Sample.service
       (Sample.desired "req1" None "dir/b.json" Present) true []
  = (Failed "File provided 'b.json' is not matching file 'a.json' of existing requirement", []) /\
  (forall rep,
     fst (main ascii_runtime Sample.service
            (Sample.desired "req1" None "dir/b.json" Present) true []) <> Done rep).
Proof. split; [reflexivity | intros rep; discriminate]. Qed.

(** C5.  With [state=absent], when the lookup finds nothing (no uuid, and
    [nd.existing] left empty), the invocation ends normally with no request
    issued, in check mode or not, and reports empty snapshots and
    [changed=false]. *)
Theorem absent_without_match_is_noop (R : runtime) (C : collaborators)
    (p : params) (check_mode : bool) (log : list request) n uuid :
  required_if p = inr (CAbsent n) ->
  locate C p = Ok (uuid, []) ->
  truthy uuid = false ->
  main R C p check_mode log
  = (Done {| previous := []; existing := []; changed := false |}, log).
Proof.
  intros V L T. unfold main. rewrite V. unfold ebind at 1, lift at 1. rewrite L.
  cbn iota beta. rewrite T. unfold exit_json, ret, nd_previous_init.
  unfold required_if in V. destruct (state p); try discriminate; [reflexivity |].
  destruct (name p), (sites p), (enabled p), (file p); discriminate.
Qed.

Lemma absent_without_match_is_noop_witness :
  main ascii_runtime Sample.service (Sample.desired "req2" None "x" Absent) false []
  = (Done {| previous := []; existing := []; changed := false |}, []).
Proof.
  apply (absent_without_match_is_noop ascii_runtime Sample.service
           (Sample.desired "req2" None "x" Absent) false [] "req2" JNull);
    reflexivity.
Defined.

(** C10 (as amended).  With [state=present], every request the invocation
    issues carries a payload whose description is: the given description,
    verbatim, when a non-empty one is given; a single space when none or an
    empty one is given and the existing record has a description that
    counts as true (non-empty); and no description key when none or an empty
    one is given and the existing record has none. *)
Theorem present_request_description (R : runtime) (C : collaborators)
    (p : params) (check_mode : bool) n en ss f uuid ex (r : request) :
  required_if p = inr (CPresent n en ss f) ->
  locate C p = Ok (uuid, ex) ->
  In r (snd (main R C p check_mode [])) ->
  (forall d, description p = Some d -> d <> "" ->
     dict_get (r_data r) "description" = Some (JStr d)) /\
  (description p = None \/ description p = Some "" ->
   truthy (field (JDict ex) "description") = true ->
     dict_get (r_data r) "description" = Some (JStr " ")) /\
  (description p = None \/ description p = Some "" ->
   truthy (field (JDict ex) "description") = false ->
     dict_get (r_data r) "description" = None).
Proof.
  intros V L I.
  assert (D : dict_get (r_data r) "description"
              = dict_get (build_payload n en (map (get_site_id C (insights_group p)) ss)
                            (selector_based_on_tags p) (description p) ex) "description").
  { revert I. unfold main. rewrite V. unfold ebind at 1, lift at 1. rewrite L.
    cbn iota beta. unfold ebind at 1.
    destruct (truthy uuid);
      [destruct (negb (String.eqb _ (basename f))); [intros [] |] |];
      (destruct (negb check_mode && _);
       unfold ebind, nd_request, ret, lift, exit_json; cbn;
       try destruct (sanitized_answer C _); cbn;
       try destruct (rsplit1 _ _) as [[? ?]|]; cbn;
       first [ intros [<-|[]]; cbn [r_data]; now rewrite dict_get_set_ne by discriminate
             | intros [] ]). }
  rewrite D, build_payload_description. cbn zeta. split; [| split].
  - intros d -> N. apply String.eqb_neq in N. now rewrite N.
  - intros [-> | ->] ->; reflexivity.
  - intros [-> | ->] ->; reflexivity.
Qed.

Lemma present_request_description_witness :
  (forall d, Some "d" = Some d -> d <> "" ->
     dict_get (r_data (Sample.update_req1 (Some "d"))) "description" = Some (JStr d)) /\
  (Some "d" = None \/ Some "d" = Some "" ->
   truthy (field (JDict (Sample.requirement "req1" "u-1" "old" "a" "json")) "description") = true ->
     dict_get (r_data (Sample.update_req1 (Some "d"))) "description" = Some (JStr " ")) /\
  (Some "d" = None \/ Some "d" = Some "" ->
   truthy (field (JDict (Sample.requirement "req1" "u-1" "old" "a" "json")) "description") = false ->
     dict_get (r_data (Sample.update_req1 (Some "d"))) "description" = None).
Proof.
  apply (present_request_description ascii_runtime Sample.service
           (Sample.desired "req1" (Some "d") "dir/a.json" Present) false
           "req1" true ["siteA"] "dir/a.json" (JStr "u-1")
           (Sample.requirement "req1" "u-1" "old" "a" "json")
           (Sample.update_req1 (Some "d"))).
  - reflexivity.
  - reflexivity.
  - vm_compute. left. reflexivity.
Defined.

(** C10 as stated fails: an empty description is a supplied description,
    yet it is not used verbatim; the update of a requirement that has a
    description then carries a single space. *)
Lemma empty_description_is_not_verbatim :
  description (Sample.desired "req1" (Some "") "dir/a.json" Present) = Some "" /\
  map (fun r => dict_get (r_data r) "description")
      (snd (main ascii_runtime Sample.service
              (Sample.desired "req1" (Some "") "dir/a.json" Present) false []))
  = [Some (JStr " ")].
Proof. split; reflexivity. Qed.

(* ================================================================== *)
(** * Further properties of the code *)
(* ================================================================== *)

(** ** The normalizers *)

(** X1.  For well-formed input the count stored under a category key and an
    epoch key is the count of the last leaf with that epoch key in the last
    entry with that category key, and nothing else is stored. *)
Theorem flatten_counts_last_wins (R : runtime) (severity resource : list json) :
  forallb wf_severity_entry severity = true ->
  forallb wf_resource_entry resource = true ->
  (exists r, NDI.format_event_severity R (JList severity) = Ok r /\
     forall c e v, count_at r c e = Some v <->
       exists each leaf, last_with (severity_category R) c severity each /\
                         last_with (epoch_key R) e (severity_leaves each) leaf /\
                         count_of leaf = v) /\
  (exists r, NDI.format_impacted_resource R (JList resource) = Ok r /\
     forall c e v, count_at r c e = Some v <->
       exists each leaf, last_with (resource_category R) c resource each /\
                         last_with (epoch_key R) e (resource_leaves each) leaf /\
                         count_of leaf = v).
Proof.
  assert (G : forall (category : json -> string) (leaves : json -> list json)
                     (entries : list json) c e v,
             count_at (assign_all category (inner_of R leaves) entries []) c e = Some v <->
             exists each leaf, last_with category c entries each /\
                               last_with (epoch_key R) e (leaves each) leaf /\
                               count_of leaf = v).
  { intros category leaves entries c e v. unfold count_at. split.
    - destruct (dict_get _ c) as [inner|] eqn:D; [| discriminate].
      apply assign_all_get in D as (each & L & <-). intros I.
      apply assign_all_get in I as (leaf & Ll & <-). eauto.
    - intros (each & leaf & L & Ll & <-).
      rewrite (assign_all_get_last _ _ _ _ _ _ L).
      now apply assign_all_get_last. }
  intros Ws Wr. split; eexists; (split; [| intros c e v; apply G]).
  - now apply format_event_severity_assign.
  - now apply format_impacted_resource_assign.
Qed.

Lemma flatten_counts_last_wins_witness :
  (exists r, NDI.format_event_severity ascii_runtime (JList Sample.repeated_category) = Ok r /\
     forall c e v, count_at r c e = Some v <->
       exists each leaf,
         last_with (severity_category ascii_runtime) c Sample.repeated_category each /\
         last_with (epoch_key ascii_runtime) e (severity_leaves each) leaf /\
         count_of leaf = v) /\
  (exists r, NDI.format_impacted_resource ascii_runtime (JList Sample.resource_entries) = Ok r /\
     forall c e v, count_at r c e = Some v <->
       exists each leaf,
         last_with (resource_category ascii_runtime) c Sample.resource_entries each /\
         last_with (epoch_key ascii_runtime) e (resource_leaves each) leaf /\
         count_of leaf = v).
Proof.
  apply (flatten_counts_last_wins ascii_runtime Sample.repeated_category
           Sample.resource_entries); reflexivity.
Defined.

Lemma for_each_invariant {A S} (P : S -> Prop) (body : S -> A -> res S) (l : list A) :
  (forall s x s', P s -> body s x = Ok s' -> P s') ->
  forall s r, P s -> for_each l s body = Ok r -> P r.
Proof.
  intros Step. induction l as [|x l IH]; intros s r Ps E; simpl in E.
  - now inversion E; subst.
  - destruct (body s x) as [s'|e] eqn:B; simpl in E; [| discriminate].
    eapply IH; [eapply Step; eassumption | eassumption].
Qed.

Lemma keys_set_present {V} (d : dict V) k v w :
  dict_get d k = Some v -> keys (dict_set d k w) = keys d.
Proof.
  induction d as [|[k0 v0] d IH]; simpl; [discriminate |].
  destruct (String.eqb_spec k0 k) as [E|E]; [reflexivity |].
  intros G. simpl. now rewrite IH.
Qed.

Lemma set_inner_keys (result r : dict (dict json)) c e v :
  NDI.set_inner result c e v = Ok r -> keys r = keys result.
Proof.
  unfold NDI.set_inner. destruct (dict_get result c) as [inner|] eqn:G; [| discriminate].
  intros E. inversion E; subst. eapply keys_set_present. eassumption.
Qed.

Lemma split_no_sep (sep : ascii) (s w : string) :
  In w (split sep s) -> contains sep w = false.
Proof.
  revert w. induction s as [|c s IH]; simpl; intros w I.
  - destruct I as [<-|[]]. reflexivity.
  - destruct (Ascii.eqb_spec c sep) as [E|E].
    + destruct I as [<-|I]; [reflexivity | now apply IH].
    + destruct (split sep s) as [|w0 ws] eqn:Sp.
      * destruct I as [<-|[]]. simpl. apply Ascii.eqb_neq in E. now rewrite E.
      * destruct I as [<-|I].
        -- simpl. apply Ascii.eqb_neq in E. rewrite E. simpl. apply IH. now left.
        -- apply IH. now right.
Qed.

Lemma split_nonempty (sep : ascii) (s : string) : split sep s <> [].
Proof.
  destruct s as [|c s]; simpl; [discriminate |].
  destruct (Ascii.eqb c sep); [discriminate |]. destruct (split sep s); discriminate.
Qed.

Lemma last_In {A} (l : list A) (d : A) : l <> [] -> In (last l d) l.
Proof.
  induction l as [|x l IH]; [congruence |]. intros _.
  destruct l as [|y l]; [now left |]. right. apply IH. discriminate.
Qed.

(** X2.  Whatever the input, when [format_event_severity] returns a mapping,
    none of its category keys contains an underscore. *)
Theorem severity_keys_have_no_underscore (R : runtime) (events_severity : json)
    (r : dict (dict json)) :
  NDI.format_event_severity R events_severity = Ok r ->
  forall k, In k (keys r) -> contains "_" k = false.
Proof.
  unfold NDI.format_event_severity.
  destruct (py_iter events_severity) as [entries|]; simpl; [| discriminate].
  intros E.
  refine (for_each_invariant
            (fun s : dict (dict json) => forall k, In k (keys s) -> contains "_" k = false)
            _ _ _ _ _ _ E); [| intros k []].
  clear E. intros s each s' Ps B.
  destruct (py_get each "bucket") as [b|]; simpl in B; [| discriminate].
  destruct (py_lower R b) as [low|]; simpl in B; [| discriminate].
  destruct (py_get each "output") as [o|]; simpl in B; [| discriminate].
  destruct (py_iter o) as [outputs|]; simpl in B; [| discriminate].
  refine (for_each_invariant
            (fun s : dict (dict json) => forall k, In k (keys s) -> contains "_" k = false)
            _ _ _ _ _ _ B); clear B.
  - intros t output t' Pt B.
    destruct (py_get output "bucket") as [b'|]; simpl in B; [| discriminate].
    destruct (py_lower R b') as [epoch|]; simpl in B; [| discriminate].
    destruct (py_get output "count") as [cnt|]; simpl in B; [| discriminate].
    apply set_inner_keys in B. now rewrite B.
  - intros k I. apply keys_set in I as [->|I]; [| now apply Ps].
    apply split_no_sep with (s := low). apply last_In, split_nonempty.
Qed.

Lemma severity_keys_have_no_underscore_witness :
  contains "_" "critical" = false /\ contains "_" "major" = false.
Proof.
  split;
    apply (severity_keys_have_no_underscore ascii_runtime (JList Sample.severity_entries)
             [("critical", [("epoch1", JNum 3); ("epoch2", JNum 4)]);
              ("major", [("epoch1", JNum 1)])] eq_refl);
    simpl; auto.
Defined.

(** ** The lookups *)

Lemma last_cons {A} (l : list A) (a d : A) : last (a :: l) d = last l a.
Proof.
  revert a d. induction l as [|b l IH]; intros a d; [reflexivity |].
  change (last (a :: b :: l) d) with (last (b :: l) d). now rewrite !IH.
Qed.

Lemma pre_change_step (R : runtime) (nd : NDI.nd_module) name site_id path kwargs
    (pcv acc : json) log :
  is_dict pcv = true ->
  (pcv_hit name site_id pcv = true ->
     exists d, data_of (NDI.answer nd (job_path R path pcv) kwargs) = Ok d) ->
  (n <~ lift (py_get pcv "name") ;;
   hit <~ (if py_eq n (JStr name)
           then (f <~ lift (py_get pcv "fabricUuid") ;; ret (py_eq f site_id))
           else ret false) ;;
   if hit : bool then
     pcv_job_id <~ lift (py_get pcv "jobId") ;;
     let pcv_path := path ++ "/" ++ str_of R pcv_job_id in
     obj <~ NDI.query_obj nd pcv_path kwargs ;;
     lift (v <- py_getitem obj "value" ;; py_getitem v "data")
   else ret acc) log
  = if pcv_hit name site_id pcv
    then (Done (job_data R nd path kwargs pcv), (log ++ [job_call R path kwargs pcv])%list)
    else (Done acc, log).
Proof.
  intros Wd A. unfold ebind, lift, ret, NDI.query_obj.
  rewrite !(py_get_field _ _ Wd). unfold pcv_hit in *.
  destruct (py_eq (field pcv "name") (JStr name)); [| reflexivity].
  destruct (py_eq (field pcv "fabricUuid") site_id); [| reflexivity].
  destruct (A eq_refl) as [d Hd]. unfold job_data, job_call.
  fold (job_path R path pcv). unfold data_of in *. now rewrite Hd.
Qed.

Lemma pre_change_loop (R : runtime) (nd : NDI.nd_module) name site_id path kwargs
    (pcvs : list json) :
  forallb is_dict pcvs = true ->
  (forall pcv, In pcv pcvs -> pcv_hit name site_id pcv = true ->
     exists d, data_of (NDI.answer nd (job_path R path pcv) kwargs) = Ok d) ->
  forall acc log,
    for_each_eff pcvs acc (fun pcv_result pcv =>
      n <~ lift (py_get pcv "name") ;;
      hit <~ (if py_eq n (JStr name)
              then (f <~ lift (py_get pcv "fabricUuid") ;; ret (py_eq f site_id))
              else ret false) ;;
      if hit : bool then
        pcv_job_id <~ lift (py_get pcv "jobId") ;;
        let pcv_path := path ++ "/" ++ str_of R pcv_job_id in
        obj <~ NDI.query_obj nd pcv_path kwargs ;;
        lift (v <- py_getitem obj "value" ;; py_getitem v "data")
      else ret pcv_result) log
    = (Done (last (map (job_data R nd path kwargs) (filter (pcv_hit name site_id) pcvs)) acc),
       (log ++ map (job_call R path kwargs) (filter (pcv_hit name site_id) pcvs))%list).
Proof.
  induction pcvs as [|pcv pcvs IH]; intros W A acc log.
  - simpl. now rewrite app_nil_r.
  - simpl in W. apply andb_prop in W as [Wd W].
    assert (A' : forall p, In p pcvs -> pcv_hit name site_id p = true ->
                   exists d, data_of (NDI.answer nd (job_path R path p) kwargs) = Ok d)
      by (intros p I; apply A; now right).
    cbn [for_each_eff filter]. unfold ebind at 1. cbn beta.
    pose proof (pre_change_step R nd name site_id path kwargs pcv acc log Wd
                  (A pcv (or_introl eq_refl))) as St.
    cbn zeta in St. rewrite St. clear St.
    destruct (pcv_hit name site_id pcv); rewrite (IH W A').
    + cbn [map]. now rewrite last_cons, <- app_assoc.
    + reflexivity.
Qed.

(** X3.  [get_pre_change_result] issues one read per analysis that has the
    given name and site, in the order of the list, and returns the data of
    the last of them; with no such analysis it returns the empty dict and
    reads nothing. *)
Theorem get_pre_change_result_last_match (R : runtime) (nd : NDI.nd_module)
    name site_id path kwargs (pcvs : list json) log :
  forallb is_dict pcvs = true ->
  (forall pcv, In pcv pcvs -> pcv_hit name site_id pcv = true ->
     exists d, data_of (NDI.answer nd (job_path R path pcv) kwargs) = Ok d) ->
  NDI.get_pre_change_result R nd (JList pcvs) name site_id path kwargs log
  = (Done (last (map (job_data R nd path kwargs) (filter (pcv_hit name site_id) pcvs))
                (JDict [])),
     (log ++ map (job_call R path kwargs) (filter (pcv_hit name site_id) pcvs))%list).
Proof.
  intros W A. unfold NDI.get_pre_change_result.
  unfold ebind at 1, lift at 1. cbn [py_iter].
  now apply pre_change_loop.
Qed.

Lemma get_pre_change_result_last_match_witness :
  NDI.get_pre_change_result ascii_runtime Sample.pcv_client (JList Sample.three_pcvs)
    "pcv1" (JStr "s-1") "p" None []
  = (Done (JStr "p/j-3"),
     [{| NDI.c_path := "p/j-1"; NDI.c_prefix := None |};
      {| NDI.c_path := "p/j-3"; NDI.c_prefix := None |}]).
Proof.
  apply (get_pre_change_result_last_match ascii_runtime Sample.pcv_client
           "pcv1" (JStr "s-1") "p" None Sample.three_pcvs []).
  - reflexivity.
  - intros pcv [<-|[<-|[<-|[]]]] H; try discriminate H; eexists; reflexivity.
Defined.

(** X4.  With both names given and well-formed answers, [query_pcv] reads,
    in this order, the list of pre-change analyses, the site list, and the
    job of each analysis with the given name on the site found, all with the
    telemetry prefix; it returns the data of the last such job, and the
    empty dict when there is none. *)
Theorem query_pcv_reads_in_order (R : runtime) (nd : NDI.nd_module)
    ig_name site_name pcv_name (pcvs sites : list json) log :
  data_of (NDI.answer nd (NDI.config_ig_path ++ "/" ++ ig_name
                            ++ "/prechangeAnalysis?$sort=-analysisSubmissionTime")
             (Some NDI.prefix)) = Ok (JList pcvs) ->
  assurance_entities (NDI.answer nd NDI.config_ig_path (Some NDI.prefix)) = Ok (JList sites) ->
  Forall wf_site sites ->
  forallb is_dict pcvs = true ->
  (forall pcv, In pcv pcvs -> pcv_hit pcv_name (site_uuid site_name sites) pcv = true ->
     exists d, data_of (NDI.answer nd
                 (job_path R (NDI.config_ig_path ++ "/" ++ ig_name ++ "/fabric/" ++ site_name
                              ++ "/prechangeAnalysis") pcv) (Some NDI.prefix)) = Ok d) ->
  let path := NDI.config_ig_path ++ "/" ++ ig_name ++ "/fabric/" ++ site_name
              ++ "/prechangeAnalysis" in
  let hits := filter (pcv_hit pcv_name (site_uuid site_name sites)) pcvs in
  NDI.query_pcv R nd ig_name (Some site_name) (Some pcv_name) log
  = (Done (last (map (job_data R nd path (Some NDI.prefix)) hits) (JDict [])),
     (log ++ {| NDI.c_path := NDI.config_ig_path ++ "/" ++ ig_name
                                ++ "/prechangeAnalysis?$sort=-analysisSubmissionTime";
                NDI.c_prefix := Some NDI.prefix |}
          :: {| NDI.c_path := NDI.config_ig_path; NDI.c_prefix := Some NDI.prefix |}
          :: map (job_call R path (Some NDI.prefix)) hits)%list).
Proof.
  intros P S W D A path hits. unfold NDI.query_pcv, NDI.query_pcvs.
  unfold ebind at 1. unfold ebind at 1, NDI.query_obj at 1, lift at 1.
  unfold data_of in P. rewrite P.
  unfold ebind at 1. rewrite (get_site_id_find _ _ _ _ _ S W).
  fold (site_uuid site_name sites).
  unfold NDI.get_pre_change_result. unfold ebind at 1, lift at 1. cbn [py_iter].
  rewrite (pre_change_loop R nd pcv_name _ _ _ pcvs D A).
  fold path hits. now rewrite <- !app_assoc.
Qed.

Lemma query_pcv_reads_in_order_witness :
  NDI.query_pcv ascii_runtime Sample.pcv_client "ig1" (Some "siteA") (Some "pcv1") []
  = (Done (JStr "config/insightsGroup/ig1/fabric/siteA/prechangeAnalysis/j-3"),
     [{| NDI.c_path := "config/insightsGroup/ig1/prechangeAnalysis?$sort=-analysisSubmissionTime";
         NDI.c_prefix := Some NDI.prefix |};
      {| NDI.c_path := "config/insightsGroup"; NDI.c_prefix := Some NDI.prefix |};
      {| NDI.c_path := "config/insightsGroup/ig1/fabric/siteA/prechangeAnalysis/j-1";
         NDI.c_prefix := Some NDI.prefix |};
      {| NDI.c_path := "config/insightsGroup/ig1/fabric/siteA/prechangeAnalysis/j-3";
         NDI.c_prefix := Some NDI.prefix |}]).
Proof.
  apply (query_pcv_reads_in_order ascii_runtime Sample.pcv_client "ig1" "siteA" "pcv1"
           Sample.three_pcvs [Sample.site "siteA" "s-1"; Sample.site "siteB" "s-2"] []).
  - reflexivity.
  - reflexivity.
  - repeat constructor; do 3 eexists; repeat split; reflexivity.
  - reflexivity.
  - intros pcv [<-|[<-|[<-|[]]]] H; try discriminate H; eexists; reflexivity.
Defined.

(** X5.  [get_site_id] stops at the first site with the given name: the
    sites after it are not inspected and may be anything.  A site without a
    name that comes before any match ends the lookup in [KeyError], even
    when a later site has the name. *)
Theorem get_site_id_stops_at_first_match (nd : NDI.nd_module) site_name kwargs log
    (before after : list json) (site : json) :
  assurance_entities (NDI.answer nd NDI.config_ig_path kwargs)
  = Ok (JList (before ++ site :: after)) ->
  Forall wf_site before ->
  (forall s, In s before -> field s "name" <> JStr site_name) ->
  (forall u, py_getitem site "name" = Ok (JStr site_name) -> py_getitem site "uuid" = Ok u ->
     fst (NDI.get_site_id nd site_name kwargs log) = Done u) /\
  (forall d, site = JDict d -> dict_get d "name" = None ->
     fst (NDI.get_site_id nd site_name kwargs log) = Raised KeyError).
Proof.
  intros A W N.
  assert (Sc : forall r, (n <- py_getitem site "name" ;;
                          if py_eq n (JStr site_name) then py_getitem site "uuid"
                          else NDI.scan_sites after site_name) = r ->
                         NDI.scan_sites (before ++ site :: after) site_name = r).
  { intros r <-. clear A. revert N.
    induction W as [|s before (d & n & u & -> & Hn & Hu) W IH]; intros N; [reflexivity |].
    simpl. rewrite Hn. simpl.
    destruct (py_eq n (JStr site_name)) eqn:E.
    - apply py_eq_str in E. exfalso. apply (N (JDict d)); [now left |].
      simpl. now rewrite Hn.
    - apply IH. intros s I. apply N. now right. }
  assert (G : forall r, NDI.scan_sites (before ++ site :: after) site_name = r ->
                        fst (NDI.get_site_id nd site_name kwargs log)
                        = match r with Ok a => Done a | Raise e => Raised e end).
  { intros r <-. unfold NDI.get_site_id, NDI.query_obj, ebind, lift.
    unfold assurance_entities in A.
    destruct (py_getitem (NDI.answer nd NDI.config_ig_path kwargs) "value") as [v|];
      simpl in *; [| discriminate].
    destruct (py_getitem v "data") as [dt|]; simpl in *; [| discriminate].
    destruct (py_first dt) as [x|]; simpl in *; [| discriminate].
    rewrite A. reflexivity. }
  split.
  - intros u Hn Hu. rewrite (G (Ok u)); [reflexivity |]. apply Sc.
    rewrite Hn. simpl. rewrite String.eqb_refl. assumption.
  - intros d -> Hn. rewrite (G (Raise KeyError)); [reflexivity |]. apply Sc.
    simpl. now rewrite Hn.
Qed.

Lemma get_site_id_stops_at_first_match_witness :
  (forall u, py_getitem (Sample.site "siteB" "s-2") "name" = Ok (JStr "siteB") ->
             py_getitem (Sample.site "siteB" "s-2") "uuid" = Ok u ->
     fst (NDI.get_site_id Sample.client "siteB" None []) = Done u) /\
  (forall d, Sample.site "siteB" "s-2" = JDict d -> dict_get d "name" = None ->
     fst (NDI.get_site_id Sample.client "siteB" None []) = Raised KeyError).
Proof.
  apply (get_site_id_stops_at_first_match Sample.client "siteB" None []
           [Sample.site "siteA" "s-1"] [] (Sample.site "siteB" "s-2")).
  - reflexivity.
  - repeat constructor; do 3 eexists; repeat split; reflexivity.
  - intros s [<-|[]]. discriminate.
Defined.

(** ** The query facade *)

(** A continuation that issues nothing leaves the log as the first step
    left it. *)
Lemma snd_bind_silent {L A B} (m : eff L A) (k : A -> eff L B) (log : list L) :
  (forall a log', snd (k a log') = log') ->
  snd (ebind m k log) = snd (m log).
Proof. intros K. unfold ebind. destruct (m log) as [[a|e|msg] log']; [apply K | |]; reflexivity. Qed.

Lemma silent_bind {L A B} (m : eff L A) (k : A -> eff L B) :
  (forall log, snd (m log) = log) ->
  (forall a log, snd (k a log) = log) ->
  forall log, snd (ebind m k log) = log.
Proof. intros M K log. rewrite snd_bind_silent by assumption. apply M. Qed.

Lemma snd_query_data (nd : NDI.nd_module) path log :
  snd (NDI.query_data nd path log)
  = (log ++ [{| NDI.c_path := path; NDI.c_prefix := Some NDI.prefix |}])%list.
Proof. unfold NDI.query_data. now rewrite snd_bind_silent. Qed.

Lemma snd_query_messages (R : runtime) (nd : NDI.nd_module) path log :
  snd (NDI.query_messages R nd path log)
  = (log ++ [{| NDI.c_path := path; NDI.c_prefix := Some NDI.prefix |}])%list.
Proof.
  unfold NDI.query_messages, ebind, lift, ret, NDI.query_obj.
  destruct (py_get (NDI.answer nd path (Some NDI.prefix)) "messages") as [m|]; [| reflexivity].
  destruct m; try reflexivity; destruct (NDI.format_messages R _); reflexivity.
Qed.

(** X6.  Every read operation of the facade issues exactly one read, on its
    own path and with the telemetry prefix, whatever the service answers and
    whether or not the answer can be normalized. *)
Theorem facade_issues_one_read (R : runtime) (nd : NDI.nd_module)
    (ig site id path : string) (log : list NDI.call) :
  let one p := (log ++ [{| NDI.c_path := p; NDI.c_prefix := Some NDI.prefix |}])%list in
  let base := NDI.event_insight_group_path ig site in
  let delta := NDI.epoch_delta_ig_path ig site id in
  snd (NDI.get_epochs nd ig site log) = one (base ++ "/epochs?$size=1&$status=FINISHED") /\
  snd (NDI.query_data nd path log) = one path /\
  snd (NDI.query_compliance_score nd ig site id log)
  = one (base ++ "/" ++ NDI.compliance_path ++ "/complianceScore?%24epochId=" ++ id) /\
  snd (NDI.query_compliance_count nd ig site id log)
  = one (base ++ "/" ++ NDI.compliance_path ++ "/count?%24epochId=" ++ id) /\
  snd (NDI.query_entry nd ig site id log)
  = one (delta ++ "/individualTable?epochStatus=BOTH_EPOCHS") /\
  snd (NDI.query_event_severity R nd ig site id log) = one (delta ++ "/eventSeverity") /\
  snd (NDI.query_impacted_resource R nd ig site id log) = one (delta ++ "/impactedResource") /\
  snd (NDI.query_messages R nd path log) = one path /\
  snd (NDI.query_compliance_smart_event R nd ig site id log)
  = one (base ++ "/smartEvents?%24epochId=" ++ id
         ++ "&%24page=0&%24size=10&%24sort=-severity&category=COMPLIANCE") /\
  snd (NDI.query_msg_with_data R nd ig site path log)
  = one (base ++ "/" ++ NDI.compliance_path ++ "/" ++ path) /\
  snd (NDI.query_unhealthy_resources nd ig site id log)
  = one (base ++ "/" ++ NDI.compliance_path ++ "/eventUnhealthyResources?%24epochId=" ++ id) /\
  snd (NDI.query_pcvs nd ig log)
  = one (NDI.config_ig_path ++ "/" ++ ig ++ "/prechangeAnalysis?$sort=-analysisSubmissionTime").
Proof.
  intros one base delta. subst one base delta. repeat apply conj.
  - unfold NDI.get_epochs. cbn zeta. now rewrite snd_bind_silent.
  - apply snd_query_data.
  - apply snd_query_data.
  - apply snd_query_data.
  - unfold NDI.query_entry. cbn zeta. now rewrite snd_bind_silent.
  - unfold NDI.query_event_severity. cbn zeta. rewrite snd_bind_silent by reflexivity. apply snd_query_data.
  - unfold NDI.query_impacted_resource. cbn zeta. rewrite snd_bind_silent by reflexivity. apply snd_query_data.
  - apply snd_query_messages.
  - apply snd_query_messages.
  - unfold NDI.query_msg_with_data. cbn zeta.
    rewrite snd_bind_silent; [reflexivity |]. intros obj l.
    apply silent_bind; [reflexivity |]. intros m l1.
    apply silent_bind; [| intros result l2].
    + intros l2. destruct m; try reflexivity;
        (apply silent_bind; [reflexivity | intros message l3; reflexivity]).
    + apply silent_bind; [reflexivity |]. intros data l3.
      apply silent_bind; [reflexivity |]. intros n l4. reflexivity.
  - unfold NDI.query_unhealthy_resources. cbn zeta. rewrite snd_bind_silent by reflexivity. apply snd_query_data.
  - unfold NDI.query_pcvs. cbn zeta. now rewrite snd_bind_silent.
Qed.

Lemma assign_all_nonempty {A V} (key : A -> string) (val : A -> V) (l : list A) (d0 : dict V) :
  l <> [] -> assign_all key val l d0 <> [].
Proof.
  destruct l as [|x l]; [congruence |]. intros _ E.
  assert (I : In (key x) (keys (assign_all key val (x :: l) d0)))
    by (apply assign_all_keys; right; now left).
  rewrite E in I. destruct I.
Qed.

(** X7.  [query_msg_with_data] returns a sparse dict: it has the key
    [messages] exactly when the answer carries a non-empty list of messages,
    the key [data] exactly when the data list is non-empty, and no other
    key. *)
Theorem msg_with_data_is_sparse (R : runtime) (nd : NDI.nd_module) ig site path log
    (o : dict json) (msgs data : list json) :
  NDI.answer nd (NDI.event_insight_group_path ig site ++ "/" ++ NDI.compliance_path
                   ++ "/" ++ path) (Some NDI.prefix) = JDict o ->
  (field (JDict o) "messages" = JNull /\ msgs = [] \/
   field (JDict o) "messages" = JList msgs /\ forallb wf_message msgs = true) ->
  data_of (JDict o) = Ok (JList data) ->
  exists result,
    fst (NDI.query_msg_with_data R nd ig site path log) = Done result /\
    dict_get result "messages"
    = match msgs with [] => None | _ => Some (JDict (messages_map R msgs)) end /\
    dict_get result "data" = match data with [] => None | _ => Some (JList data) end /\
    (forall k, In k (keys result) -> k = "messages" \/ k = "data").
Proof.
  intros A M D. unfold NDI.query_msg_with_data. cbn zeta.
  unfold ebind at 1, NDI.query_obj at 1. rewrite A.
  unfold ebind at 1, lift at 1. cbn [py_get]. cbn [field] in M.
  assert (V : (v <- py_get (JDict o) "value" ;; py_getitem v "data") = Ok (JList data)).
  { unfold data_of in D. cbn [py_get py_getitem] in *.
    destruct (dict_get o "value") as [v|]; [assumption | discriminate]. }
  assert (T : forall result : dict json,
            (data0 <~ lift (v <- py_get (JDict o) "value" ;; py_getitem v "data") ;;
             n <~ lift (py_len data0) ;;
             ret (if (0 <? n)%nat then dict_set result "data" data0 else result))
              (log ++ [{| NDI.c_path := NDI.event_insight_group_path ig site ++ "/" ++
                                         NDI.compliance_path ++ "/" ++ path;
                          NDI.c_prefix := Some NDI.prefix |}])%list
            = (Done (match data with
                     | [] => result
                     | _ => dict_set result "data" (JList data)
                     end),
               (log ++ [{| NDI.c_path := NDI.event_insight_group_path ig site ++ "/" ++
                                          NDI.compliance_path ++ "/" ++ path;
                           NDI.c_prefix := Some NDI.prefix |}])%list)).
  { intros result. unfold ebind, lift, ret. rewrite V. cbn [py_len].
    destruct data; reflexivity. }
  destruct M as [[-> ->] | [-> W]].
  - unfold ebind at 1, ret at 1. rewrite T.
    eexists. split; [reflexivity |]. destruct data; cbn; intuition.
  - unfold ebind at 1. unfold ebind at 1, lift at 1.
    rewrite (format_messages_assign R msgs W). fold (messages_map R msgs).
    unfold ret at 1. rewrite T.
    eexists. split; [reflexivity |].
    destruct msgs as [|m msgs].
    + destruct data; cbn; intuition.
    + assert (N : messages_map R (m :: msgs) <> [])
        by (apply assign_all_nonempty; discriminate).
      destruct (messages_map R (m :: msgs)) as [|kv rest] eqn:E; [congruence |].
      destruct data; cbn; intuition.
Qed.

Lemma msg_with_data_is_sparse_witness :
  exists result,
    fst (NDI.query_msg_with_data ascii_runtime (Sample.constant_client Sample.full_answer)
           "ig1" "siteA" "p" []) = Done result /\
    dict_get result "messages" = Some (JDict [("error", JStr "m2")]) /\
    dict_get result "data" = Some (JList [JNum 7]) /\
    (forall k, In k (keys result) -> k = "messages" \/ k = "data").
Proof.
  apply (msg_with_data_is_sparse ascii_runtime (Sample.constant_client Sample.full_answer)
           "ig1" "siteA" "p" []
           [("messages", JList [Sample.message "ERROR" "m1"; Sample.message "error" "m2"]);
            ("value", JDict [("data", JList [JNum 7])])]
           [Sample.message "ERROR" "m1"; Sample.message "error" "m2"] [JNum 7]).
  - reflexivity.
  - right. split; reflexivity.
  - reflexivity.
Defined.

Lemma key_get_as_kdict {V} (d : dict V) (k : string) :
  key_get (as_kdict d) (JStr k) = dict_get d k.
Proof.
  induction d as [|[k0 v0] d IH]; simpl; [reflexivity |]. now rewrite IH.
Qed.

Lemma key_set_as_kdict {V} (d : dict V) (k : string) (v : V) :
  key_set (as_kdict d) (JStr k) v = as_kdict (dict_set d k v).
Proof.
  induction d as [|[k0 v0] d IH]; simpl; [reflexivity |].
  destruct (String.eqb k0 k); simpl; [reflexivity | now rewrite IH].
Qed.

(** X8.  For entries with a string bucket, [query_unhealthy_resources] keys
    its result by the bucket exactly as written (no lower-casing), and the
    value of a bucket is the count and total of the last entry with that
    bucket. *)
Theorem unhealthy_resources_by_exact_bucket (nd : NDI.nd_module) ig site id log
    (objs : list json) :
  data_of (NDI.answer nd (NDI.event_insight_group_path ig site ++ "/" ++ NDI.compliance_path
                            ++ "/eventUnhealthyResources?%24epochId=" ++ id)
             (Some NDI.prefix)) = Ok (JList objs) ->
  forallb wf_leaf objs = true ->
  exists r,
    fst (NDI.query_unhealthy_resources nd ig site id log) = Done r /\
    forall b v, key_get r (JStr b) = Some v <->
                exists obj, last_with bucket_of b objs obj /\ count_total obj = v.
Proof.
  intros D W. exists (as_kdict (assign_all bucket_of count_total objs [])). split.
  - unfold NDI.query_unhealthy_resources. cbn zeta.
    unfold ebind at 1. unfold NDI.query_data, ebind at 1, NDI.query_obj at 1, lift at 1.
    unfold data_of in D. rewrite D. unfold lift. cbn [py_iter bind fst].
    assert (F : forall (l : list json) (d : dict (dict json)),
              forallb wf_leaf l = true ->
              for_each l (as_kdict d) (fun result obj =>
                c <- py_get obj "count" ;;
                t <- py_get obj "total" ;;
                b <- py_get obj "bucket" ;;
                if hashable b then Ok (key_set result b [("count", c); ("total", t)])
                else Raise TypeError)
              = Ok (as_kdict (assign_all bucket_of count_total l d))).
    { induction l as [|obj l IH]; intros d Wl; [reflexivity |].
      simpl in Wl. apply andb_prop in Wl as [Wo Wl].
      unfold wf_leaf in Wo. apply andb_prop in Wo as [Wd Ws].
      cbn [for_each]. rewrite !(py_get_field _ _ Wd). cbn [bind].
      unfold bucket_of, count_total, assign_all. cbn [fold_left].
      destruct (field obj "bucket") as [| | |b| |]; try discriminate Ws.
      cbn [hashable text]. rewrite key_set_as_kdict. apply (IH _ Wl). }
    match goal with
    | |- match ?x with _ => _ end = _ =>
        replace x with (Ok (as_kdict (assign_all bucket_of count_total objs [])))
          by (symmetry; exact (F objs [] W))
    end. reflexivity.
  - intros b v. rewrite key_get_as_kdict. apply assign_all_get.
Qed.

Lemma unhealthy_resources_by_exact_bucket_witness :
  exists r,
    fst (NDI.query_unhealthy_resources
           (Sample.constant_client (Sample.wrap (JList Sample.unhealthy_entries)))
           "ig1" "siteA" "e-7" []) = Done r /\
    forall b v, key_get r (JStr b) = Some v <->
                exists obj, last_with bucket_of b Sample.unhealthy_entries obj /\
                            count_total obj = v.
Proof.
  apply (unhealthy_resources_by_exact_bucket
           (Sample.constant_client (Sample.wrap (JList Sample.unhealthy_entries)))
           "ig1" "siteA" "e-7" [] Sample.unhealthy_entries); reflexivity.
Defined.

(** ** The reconciliation *)

Lemma required_if_state (p : params) (view : checked) :
  required_if p = inr view ->
  state p = match view with
            | CQuery => Query
            | CAbsent _ => Absent
            | CPresent _ _ _ _ => Present
            end.
Proof.
  unfold required_if. destruct (state p).
  - intros E. now inversion E.
  - destruct (name p); intros E; now inversion E.
  - destruct (name p), (sites p), (enabled p), (file p); intros E; now inversion E.
Qed.

Lemma present_log (R : runtime) (C : collaborators) (p : params)
    (check_mode : bool) (log : list request) n en ss f uuid ex :
  required_if p = inr (CPresent n en ss f) ->
  locate C p = Ok (uuid, ex) ->
  snd (main R C p check_mode log)
  = (log ++ present_requests R C p check_mode n en ss f uuid ex)%list.
Proof.
  intros V L. unfold main. rewrite V. unfold ebind at 1, lift at 1. rewrite L.
  cbn iota beta. unfold present_requests, attached_file, field, desired_payload,
    update_request, create_request. cbn zeta. unfold ebind at 1.
  destruct (truthy uuid);
    [destruct (negb (String.eqb _ (basename f))); [now rewrite app_nil_r |] |];
    (destruct (negb check_mode && _);
     unfold ebind, nd_request, ret, lift, exit_json; cbn;
     try destruct (sanitized_answer C _); cbn;
     try destruct (rsplit1 _ _) as [[? ?]|]; cbn;
     try rewrite app_nil_r; reflexivity).
Qed.

(** X9.  With [state=present] the requests of an invocation are decided by
    what it found: none when the file-name check fails, in check mode, or
    when the payload equals the sanitized existing record; otherwise exactly
    one, a PATCH on the requirement's own path with the uuid added to the
    payload and no file when a uuid was located, and a POST on [.../file]
    with the file's absolute path and the file parameter, as given, under
    [uploadedFileName] when none was. *)
Theorem present_requests_issued (R : runtime) (C : collaborators) (p : params)
    (check_mode : bool) (log : list request) n en ss f uuid ex :
  required_if p = inr (CPresent n en ss f) ->
  locate C p = Ok (uuid, ex) ->
  snd (main R C p check_mode log)
  = (log ++ present_requests R C p check_mode n en ss f uuid ex)%list.
Proof. apply present_log. Qed.

Lemma present_requests_issued_witness :
  snd (main ascii_runtime Sample.service
         (Sample.desired "req2" (Some "d") "dir/tmpl.json" Present) false [])
  = [create_request Sample.service (Sample.desired "req2" (Some "d") "dir/tmpl.json" Present)
       "dir/tmpl.json"
       (desired_payload Sample.service (Sample.desired "req2" (Some "d") "dir/tmpl.json" Present)
          "req2" true ["siteA"] [])].
Proof.
  apply (present_requests_issued ascii_runtime Sample.service
           (Sample.desired "req2" (Some "d") "dir/tmpl.json" Present) false []
           "req2" true ["siteA"] "dir/tmpl.json" JNull []); reflexivity.
Defined.

Lemma absent_requests_issued (R : runtime) (C : collaborators) (p : params)
    (check_mode : bool) (log : list request) n uuid ex :
  required_if p = inr (CAbsent n) ->
  locate C p = Ok (uuid, ex) ->
  snd (main R C p check_mode log)
  = (log ++ if truthy uuid && negb check_mode then [delete_request C p uuid] else [])%list.
Proof.
  intros V L. unfold main. rewrite V. unfold ebind at 1, lift at 1. rewrite L.
  cbn iota beta. destruct (truthy uuid), check_mode; cbn; now rewrite ?app_nil_r.
Qed.

(** X10.  An invocation issues at most one request, and none in check mode
    or with [state=query]: a request that is issued is the only one, the
    invocation is not in check mode, and the request is a DELETE under
    [state=absent] and a POST or PATCH under [state=present]. *)
Theorem at_most_one_request (R : runtime) (C : collaborators) (p : params)
    (check_mode : bool) (r : request) :
  In r (snd (main R C p check_mode [])) ->
  check_mode = false /\
  snd (main R C p check_mode []) = [r] /\
  state p = match r_method r with
            | DELETE => Absent
            | POST | PATCH => Present
            end.
Proof.
  destruct (required_if p) as [msg|view] eqn:V.
  - unfold main. rewrite V. intros [].
  - destruct (locate C p) as [[uuid ex]|e] eqn:L.
    + destruct view as [|n|n en ss f].
      * unfold main. rewrite V. unfold ebind, lift. rewrite L. intros [].
      * apply required_if_state in V as St.
        rewrite (absent_requests_issued R C p check_mode [] n uuid ex V L).
        cbn [app]. rewrite St.
        destruct (truthy uuid); [| intros []].
        destruct check_mode; cbn [negb andb]; [intros [] |].
        intros [<-|[]]. repeat split.
      * apply required_if_state in V as St.
        rewrite (present_log R C p check_mode [] n en ss f uuid ex V L).
        unfold present_requests. cbn [app]. rewrite St.
        destruct (truthy uuid);
          [destruct (negb (String.eqb _ (basename f))); [intros [] |] |];
          (destruct check_mode; cbn [negb andb]; [intros [] |];
           destruct (negb (py_eq _ _)); [| intros []];
           intros [<-|[]]; repeat split).
    + unfold main. rewrite V. unfold ebind, lift. rewrite L. intros [].
Qed.

Lemma at_most_one_request_witness :
  false = false /\
  snd (main ascii_runtime Sample.service
         (Sample.desired "req1" (Some "d") "dir/a.json" Present) false [])
  = [Sample.update_req1 (Some "d")] /\
  state (Sample.desired "req1" (Some "d") "dir/a.json" Present)
  = match r_method (Sample.update_req1 (Some "d")) with
    | DELETE => Absent
    | POST | PATCH => Present
    end.
Proof.
  apply (at_most_one_request ascii_runtime Sample.service
           (Sample.desired "req1" (Some "d") "dir/a.json" Present) false
           (Sample.update_req1 (Some "d"))).
  vm_compute. left. reflexivity.
Defined.

(** X11.  With [state=absent] and a uuid located, an invocation outside
    check mode issues exactly one request, a DELETE on the requirements path
    whose data lists that uuid, and reports an empty [existing] and the
    sanitized record as [previous]. *)
Theorem absent_deletes_by_uuid (R : runtime) (C : collaborators) (p : params)
    (log : list request) n uuid ex :
  required_if p = inr (CAbsent n) ->
  locate C p = Ok (uuid, ex) ->
  truthy uuid = true ->
  snd (main R C p false log) = (log ++ [delete_request C p uuid])%list /\
  exists rep, fst (main R C p false log) = Done rep /\
    existing rep = [] /\ previous rep = sanitize_dict C ex delete_keys.
Proof.
  intros V L T.
  assert (E : main R C p false log
              = (Done {| previous := sanitize_dict C ex delete_keys;
                         existing := [];
                         changed := match state p with
                                    | Query => false
                                    | _ => negb (py_eq (JDict (sanitize_dict C ex delete_keys))
                                                   (JDict []))
                                    end |},
                 (log ++ [delete_request C p uuid])%list)).
  { unfold main. rewrite V. unfold ebind at 1, lift at 1. rewrite L.
    cbn iota beta. rewrite T. reflexivity. }
  rewrite E. split; [reflexivity |].
  eexists. split; [reflexivity |]. split; reflexivity.
Qed.

Lemma absent_deletes_by_uuid_witness :
  snd (main ascii_runtime Sample.service (Sample.desired "req1" None "x" Absent) false [])
  = [delete_request Sample.service (Sample.desired "req1" None "x" Absent) (JStr "u-1")] /\
  exists rep,
    fst (main ascii_runtime Sample.service (Sample.desired "req1" None "x" Absent) false [])
    = Done rep /\
    existing rep = [] /\
    previous rep = Sample.strip (Sample.requirement "req1" "u-1" "old" "a" "json") delete_keys.
Proof.
  apply (absent_deletes_by_uuid ascii_runtime Sample.service
           (Sample.desired "req1" None "x" Absent) [] "req1" (JStr "u-1")
           (Sample.requirement "req1" "u-1" "old" "a" "json")); reflexivity.
Defined.

Lemma rsplit1_join (sep : ascii) (s h t : string) :
  rsplit1 sep s = Some (h, t) -> s = h ++ String sep t.
Proof.
  revert h. induction s as [|c s IH]; simpl; intros h; [discriminate |].
  destruct (rsplit1 sep s) as [[h' t']|].
  - intros E. inversion E; subst. simpl. f_equal. now apply IH.
  - destruct (Ascii.eqb_spec c sep) as [->|]; [| discriminate].
    intros E. now inversion E; subst.
Qed.

Lemma rsplit1_contains (sep : ascii) (s : string) :
  contains sep s = true -> rsplit1 sep s <> None.
Proof.
  induction s as [|c s IH]; simpl; [discriminate |].
  destruct (rsplit1 sep s) as [[h t]|]; [discriminate |].
  destruct (Ascii.eqb c sep); [discriminate |]. simpl. intros H. now apply IH in H.
Qed.

Lemma contains_middle (sep : ascii) (a b : string) : contains sep (a ++ String sep b) = true.
Proof.
  induction a as [|c a IH]; simpl.
  - now rewrite Ascii.eqb_refl.
  - rewrite IH. apply orb_true_r.
Qed.

Lemma attached_file_attach (R : runtime) (stem ext : string) (d : dict json) :
  (forall s, str_of R (JStr s) = s) ->
  attached_file R (attach_file stem ext d) = stem ++ "." ++ ext.
Proof.
  intros Str. unfold attached_file, attach_file, field.
  rewrite dict_get_set_eq, dict_get_set_ne by discriminate.
  rewrite dict_get_set_eq. now rewrite !Str.
Qed.

(** What a [present] invocation reports when it ends normally: both
    snapshots with the name and the extension of the file attached. *)
Lemma present_report (R : runtime) (C : collaborators) (p : params)
    (check_mode : bool) (log : list request) n en ss f rep :
  required_if p = inr (CPresent n en ss f) ->
  fst (main R C p check_mode log) = Done rep ->
  exists stem ext prev cur,
    rsplit1 "." (basename f) = Some (stem, ext) /\
    previous rep = attach_file stem ext prev /\
    existing rep = attach_file stem ext cur.
Proof.
  intros V. unfold main. rewrite V. unfold ebind at 1, lift at 1.
  destruct (locate C p) as [[uuid ex]|e]; [| discriminate].
  cbn iota beta. unfold ebind at 1.
  destruct (truthy uuid);
    [destruct (negb (String.eqb _ (basename f))); [discriminate |] |];
    (destruct (negb check_mode && _);
     unfold ebind, nd_request, ret, lift, exit_json; cbn;
     try destruct (sanitized_answer C _); cbn; try discriminate;
     destruct (rsplit1 _ _) as [[stem ext]|]; cbn; try discriminate;
     intros E; inversion E; subst; cbn; eauto 8).
Qed.

(** X12.  Under a runtime that writes a str as itself, whenever a
    [present] invocation ends normally, the file name and extension it
    attached to [existing] and to [previous], joined by a dot, give back the
    basename of the file parameter. *)
Theorem reported_file_rebuilds_basename (R : runtime) (C : collaborators) (p : params)
    (check_mode : bool) (log : list request) n en ss f rep :
  (forall s, str_of R (JStr s) = s) ->
  required_if p = inr (CPresent n en ss f) ->
  fst (main R C p check_mode log) = Done rep ->
  attached_file R (existing rep) = basename f /\
  attached_file R (previous rep) = basename f.
Proof.
  intros Str V D.
  destruct (present_report R C p check_mode log n en ss f rep V D)
    as (stem & ext & prev & cur & S & -> & ->).
  apply rsplit1_join in S. rewrite S.
  split; now apply attached_file_attach.
Qed.

Lemma reported_file_rebuilds_basename_witness :
  exists rep,
    fst (main ascii_runtime Sample.service
           (Sample.desired "req2" (Some "d") "dir/tmpl.v2.json" Present) false []) = Done rep /\
    attached_file ascii_runtime (existing rep) = "tmpl.v2.json" /\
    attached_file ascii_runtime (previous rep) = "tmpl.v2.json".
Proof.
  eexists. split; [reflexivity |].
  apply (reported_file_rebuilds_basename ascii_runtime Sample.service
           (Sample.desired "req2" (Some "d") "dir/tmpl.v2.json" Present) false []
           "req2" true ["siteA"] "dir/tmpl.v2.json");
    [intros s | |]; reflexivity.
Defined.

(** X13.  When a uuid was located, a [present] invocation never ends in the
    [ValueError] of the final unpacking: a file that passes the file-name
    check has a dot in its basename. *)
Theorem update_never_fails_unpacking (R : runtime) (C : collaborators) (p : params)
    (check_mode : bool) (log : list request) n en ss f uuid ex :
  required_if p = inr (CPresent n en ss f) ->
  locate C p = Ok (uuid, ex) ->
  truthy uuid = true ->
  fst (main R C p check_mode log) <> Raised ValueError.
Proof.
  intros V L T. unfold main. rewrite V. unfold ebind at 1, lift at 1. rewrite L.
  cbn iota beta. rewrite T. unfold ebind at 1.
  change (str_of R match dict_get ex "uploadedFileName" with Some v => v | None => JNull end
          ++ "." ++
          str_of R match dict_get ex "uploadedFileExtension" with Some v => v | None => JNull end)
    with (attached_file R ex).
  destruct (String.eqb_spec (attached_file R ex) (basename f)) as [E|E];
    [| discriminate].
  assert (S : rsplit1 "." (basename f) <> None).
  { rewrite <- E. apply rsplit1_contains. unfold attached_file. apply contains_middle. }
  destruct (rsplit1 "." (basename f)) as [[stem ext]|] eqn:Sp; [| congruence].
  cbn - [build_payload py_eq].
  destruct (negb check_mode && _);
    unfold ebind, nd_request, ret, lift, exit_json, sanitized_answer; cbn - [build_payload py_eq].
  - destruct (py_get_default _ "value" _) as [v|] eqn:G1.
    + cbn - [build_payload]. destruct (py_get_default v "data" _) as [d|] eqn:G2.
      * cbn - [build_payload]. destruct d; cbn; try discriminate.
      * destruct v; cbn in G2; inversion G2; cbn; discriminate.
    + destruct (response C _); cbn in G1; inversion G1; cbn; discriminate.
  - discriminate.
Qed.

Lemma update_never_fails_unpacking_witness :
  fst (main ascii_runtime Sample.service
         (Sample.desired "req1" (Some "d") "dir/a.json" Present) false [])
  <> Raised ValueError.
Proof.
  apply (update_never_fails_unpacking ascii_runtime Sample.service
           (Sample.desired "req1" (Some "d") "dir/a.json" Present) false []
           "req1" true ["siteA"] "dir/a.json" (JStr "u-1")
           (Sample.requirement "req1" "u-1" "old" "a" "json")); reflexivity.
Defined.

Lemma rsplit1_none (sep : ascii) (s : string) :
  contains sep s = false -> rsplit1 sep s = None.
Proof.
  induction s as [|c s IH]; simpl; [reflexivity |].
  intros H. apply orb_false_elim in H as [Hc Hs]. now rewrite (IH Hs), Hc.
Qed.

(** X14.  Creating a requirement from a file whose basename has no dot ends
    in [ValueError]: in check mode with nothing issued; outside check mode,
    once the answer to the upload has been read, after the POST that creates
    the requirement has been issued. *)
Theorem create_without_dot_raises (R : runtime) (C : collaborators) (p : params)
    (log : list request) n en ss f uuid ex answer :
  required_if p = inr (CPresent n en ss f) ->
  locate C p = Ok (uuid, ex) ->
  truthy uuid = false ->
  contains "." (basename f) = false ->
  py_eq (JDict (desired_payload C p n en ss ex))
        (JDict (sanitize_dict C ex delete_keys)) = false ->
  sanitized_answer C (response C (create_request C p f (desired_payload C p n en ss ex)))
  = Ok answer ->
  main R C p true log = (Raised ValueError, log) /\
  main R C p false log
  = (Raised ValueError,
     (log ++ [create_request C p f (desired_payload C p n en ss ex)])%list).
Proof.
  intros V L T Dot Ne A. apply rsplit1_none in Dot.
  unfold desired_payload, create_request in *. split.
  - unfold main. rewrite V. unfold ebind at 1, lift at 1. rewrite L.
    cbn iota beta. rewrite T. unfold ebind at 1, ret at 1.
    cbn [negb andb]. unfold ebind at 1, ret at 1. now rewrite Dot.
  - unfold main. rewrite V. unfold ebind at 1, lift at 1. rewrite L.
    cbn iota beta. rewrite T. unfold ebind at 1, ret at 1.
    rewrite Ne. cbn [negb andb]. rewrite Dot.
    unfold ebind, nd_request, lift. now rewrite A.
Qed.

Lemma create_without_dot_raises_witness :
  main ascii_runtime Sample.service (Sample.desired "req2" None "dir/tmpl" Present) true []
  = (Raised ValueError, []) /\
  main ascii_runtime Sample.service (Sample.desired "req2" None "dir/tmpl" Present) false []
  = (Raised ValueError,
     [create_request Sample.service (Sample.desired "req2" None "dir/tmpl" Present) "dir/tmpl"
        (desired_payload Sample.service (Sample.desired "req2" None "dir/tmpl" Present)
           "req2" true ["siteA"] [])]).
Proof.
  apply (create_without_dot_raises ascii_runtime Sample.service
           (Sample.desired "req2" None "dir/tmpl" Present) []
           "req2" true ["siteA"] "dir/tmpl" JNull []
           (Sample.strip
              (dict_set (desired_payload Sample.service
                           (Sample.desired "req2" None "dir/tmpl" Present)
                           "req2" true ["siteA"] [])
                        "uploadedFileName" (JStr "dir/tmpl"))
              delete_keys)); reflexivity.
Defined.

Lemma template_requirements_filter (items : list json) :
  forallb is_dict items = true ->
  template_requirements items = Ok (filter is_template items).
Proof.
  induction items as [|item items IH]; simpl; intros W; [reflexivity |].
  apply andb_prop in W as [Wd W].
  rewrite (py_get_field _ _ Wd), (IH W). reflexivity.
Qed.

Lemma template_requirements_raises (items : list json) :
  forallb is_dict items = false ->
  template_requirements items = Raise AttributeError.
Proof.
  induction items as [|item items IH]; simpl; intros W; [discriminate |].
  destruct (is_dict item) eqn:D.
  - rewrite (py_get_field _ _ D). simpl. now rewrite (IH W).
  - destruct item; try discriminate D; reflexivity.
Qed.

(** X15.  The lookup by name only ever sees the requirements whose
    configuration type is the template type, in the order of the answer.  An
    answer that holds an item which is not a record ends every invocation
    that passed the parameter check, [query] included, in [AttributeError]
    with nothing issued. *)
Theorem locate_among_template_requirements (R : runtime) (C : collaborators) (p : params)
    (check_mode : bool) (log : list request) (items : list json) :
  py_iter (query_requirements C (insights_group p)) = Ok items ->
  (forallb is_dict items = true ->
   locate C p = Ok (set_requirement_details C (filter is_template items) (name p))) /\
  (forallb is_dict items = false ->
   forall view, required_if p = inr view ->
     main R C p check_mode log = (Raised AttributeError, log)).
Proof.
  intros I. split.
  - intros W. unfold locate. rewrite I. simpl.
    now rewrite (template_requirements_filter _ W).
  - intros W view V. unfold main. rewrite V. unfold ebind, lift, locate. rewrite I. simpl.
    now rewrite (template_requirements_raises _ W).
Qed.

Lemma locate_among_template_requirements_witness :
  (forallb is_dict [JDict (Sample.requirement "req1" "u-1" "old" "a" "json"); JStr "oops"] = true ->
   locate Sample.broken_service (Sample.desired "req1" None "x" Query)
   = Ok (set_requirement_details Sample.broken_service
           (filter is_template
              [JDict (Sample.requirement "req1" "u-1" "old" "a" "json"); JStr "oops"])
           (name (Sample.desired "req1" None "x" Query)))) /\
  (forallb is_dict [JDict (Sample.requirement "req1" "u-1" "old" "a" "json"); JStr "oops"] = false ->
   forall view, required_if (Sample.desired "req1" None "x" Query) = inr view ->
     main ascii_runtime Sample.broken_service (Sample.desired "req1" None "x" Query) false []
     = (Raised AttributeError, [])).
Proof.
  apply (locate_among_template_requirements ascii_runtime Sample.broken_service
           (Sample.desired "req1" None "x" Query) false []
           [JDict (Sample.requirement "req1" "u-1" "old" "a" "json"); JStr "oops"]).
  reflexivity.
Defined.

Lemma assign_all_by_pairs {A V} (key : A -> string) (val : A -> V) (l1 l2 : list A)
    (d : dict V) :
  map key l1 = map key l2 -> map val l1 = map val l2 ->
  assign_all key val l1 d = assign_all key val l2 d.
Proof.
  revert l2 d. induction l1 as [|x l1 IH]; intros [|y l2] d K Vs; try discriminate.
  - reflexivity.
  - simpl in K, Vs. inversion K as [[Kx Kl]]. inversion Vs as [[Vx Vl]].
    unfold assign_all in *. simpl. rewrite Kx, Vx. now apply IH.
Qed.

(** X17.  [format_impacted_resource] merges the leaves of all the items of
    an entry's [output]: the buckets of those middle items never reach the
    result, and two well-formed inputs with the same resource keys and the
    same leaves per entry give the same mapping. *)
Theorem resource_ignores_middle_level (R : runtime) (first second : list json) :
  forallb wf_resource_entry first = true ->
  forallb wf_resource_entry second = true ->
  map (resource_category R) first = map (resource_category R) second ->
  map resource_leaves first = map resource_leaves second ->
  NDI.format_impacted_resource R (JList first)
  = NDI.format_impacted_resource R (JList second).
Proof.
  intros W1 W2 K Ls.
  rewrite (format_impacted_resource_assign R _ W1), (format_impacted_resource_assign R _ W2).
  f_equal. apply assign_all_by_pairs; [assumption |].
  unfold inner_of.
  change (fun each => assign_all (epoch_key R) count_of (resource_leaves each) [])
    with (fun each => (fun l => assign_all (epoch_key R) count_of l []) (resource_leaves each)).
  rewrite <- !(map_map resource_leaves (fun l => assign_all (epoch_key R) count_of l [])).
  now rewrite Ls.
Qed.

Lemma resource_ignores_middle_level_witness :
  NDI.format_impacted_resource ascii_runtime (JList Sample.resource_one_item)
  = NDI.format_impacted_resource ascii_runtime (JList Sample.resource_two_items).
Proof.
  apply (resource_ignores_middle_level ascii_runtime
           Sample.resource_one_item Sample.resource_two_items); reflexivity.
Defined.

(** X18.  When the answer for the insights group has an empty [data] list,
    [get_site_id] raises [IndexError] instead of returning [None], and a
    [query_pcv] with both names given ends in that error after its two
    reads, whatever the list of pre-change analyses holds. *)
Theorem empty_group_answer_raises (R : runtime) (nd : NDI.nd_module)
    ig_name site_name pcv_name kwargs log pcvs :
  data_of (NDI.answer nd NDI.config_ig_path kwargs) = Ok (JList []) ->
  fst (NDI.get_site_id nd site_name kwargs log) = Raised IndexError /\
  (kwargs = Some NDI.prefix ->
   data_of (NDI.answer nd (NDI.config_ig_path ++ "/" ++ ig_name
                             ++ "/prechangeAnalysis?$sort=-analysisSubmissionTime")
              (Some NDI.prefix)) = Ok pcvs ->
   NDI.query_pcv R nd ig_name (Some site_name) (Some pcv_name) log
   = (Raised IndexError,
      (log ++ [{| NDI.c_path := NDI.config_ig_path ++ "/" ++ ig_name
                                  ++ "/prechangeAnalysis?$sort=-analysisSubmissionTime";
                  NDI.c_prefix := Some NDI.prefix |};
               {| NDI.c_path := NDI.config_ig_path; NDI.c_prefix := Some NDI.prefix |}])%list)).
Proof.
  intros D.
  assert (G : forall l, NDI.get_site_id nd site_name kwargs l
                        = (Raised IndexError,
                           (l ++ [{| NDI.c_path := NDI.config_ig_path;
                                     NDI.c_prefix := kwargs |}])%list)).
  { intros l. unfold NDI.get_site_id, NDI.query_obj, ebind, lift. unfold data_of in D.
    destruct (py_getitem (NDI.answer nd NDI.config_ig_path kwargs) "value") as [v|];
      simpl in *; [| discriminate].
    now rewrite D. }
  split; [now rewrite G |].
  intros -> P. unfold NDI.query_pcv, NDI.query_pcvs.
  unfold ebind at 1. unfold ebind at 1, NDI.query_obj at 1, lift at 1.
  unfold data_of in P. rewrite P. unfold ebind at 1. rewrite G.
  now rewrite <- app_assoc.
Qed.

Lemma empty_group_answer_raises_witness :
  fst (NDI.get_site_id (Sample.constant_client (Sample.wrap (JList []))) "siteA"
         (Some NDI.prefix) []) = Raised IndexError /\
  (Some NDI.prefix = Some NDI.prefix ->
   data_of (NDI.answer (Sample.constant_client (Sample.wrap (JList [])))
              (NDI.config_ig_path ++ "/" ++ "ig1"
               ++ "/prechangeAnalysis?$sort=-analysisSubmissionTime")
              (Some NDI.prefix)) = Ok (JList []) ->
   NDI.query_pcv ascii_runtime (Sample.constant_client (Sample.wrap (JList []))) "ig1"
     (Some "siteA") (Some "pcv1") []
   = (Raised IndexError,
      [{| NDI.c_path := NDI.config_ig_path ++ "/" ++ "ig1"
                          ++ "/prechangeAnalysis?$sort=-analysisSubmissionTime";
          NDI.c_prefix := Some NDI.prefix |};
       {| NDI.c_path := NDI.config_ig_path; NDI.c_prefix := Some NDI.prefix |}])).
Proof.
  apply (empty_group_answer_raises ascii_runtime
           (Sample.constant_client (Sample.wrap (JList []))) "ig1" "siteA" "pcv1"
           (Some NDI.prefix) [] (JList [])).
  reflexivity.
Defined.
